(** * Environment validation script [docker/validate.py]

    A shallow embedding of the six probes and of [main], and the
    properties of the probe-and-report engine.

    The script is a straight line of library interactions (imports,
    attribute reads, calls) wrapped in [try]/[except] blocks, with
    console output on the side.  The embedding keeps exactly that:

    - the installed libraries and the hardware are an environment [Env]
      that says, for each interaction, whether it succeeds or which
      class of exception it raises;
    - a probe is a computation in a writer-and-exception monad [M]: it
      appends events to the console log and either returns a value or
      raises;
    - [try]/[except] is the combinator [try_], with the handler clauses
      tried in order, selected by exception class. *)

From stdpp Require Import base strings list gmap.

Open Scope string_scope.
Open Scope list_scope.

(** ** Exceptions *)

(** What library code raises at an interaction.  The handlers of the
    script tell [ImportError] (with its subclass [ModuleNotFoundError])
    from every other subclass of [Exception]; nothing else is told
    apart.  Signals outside [Exception] coming from library code
    ([KeyboardInterrupt], a library calling [sys.exit]) are not part of
    the model. *)
Inductive lib_error : Type :=
| LibImportError
| LibOtherError.

(** Exceptions travelling through the script itself. *)
Inductive exn : Type :=
| ImportError
| KeyError (key : string)
| OtherException
| SystemExit (code : Z).

Definition exn_of_lib (e : lib_error) : exn :=
  match e with
  | LibImportError => ImportError
  | LibOtherError => OtherException
  end.

(** The classes named by the [except] clauses of the script:
    [except ImportError], [except Exception] and the bare [except:]. *)
Inductive exc_class : Type :=
| ExcImportError
| ExcException
| ExcBare.

Definition isinstance (e : exn) (c : exc_class) : bool :=
  match c, e with
  | ExcImportError, ImportError => true
  | ExcImportError, _ => false
  | ExcException, SystemExit _ => false
  | ExcException, _ => true
  | ExcBare, _ => true
  end.

(** ** Console events *)

(** One event per output helper of the script.  The payload is the
    text of the message as the source writes it, with the interpolated
    parts left as the source's placeholders; colour codes and symbols
    are carried by the constructor. *)
Inductive event : Type :=
| Separator
| Print (msg : string)
| Header (msg : string)
| Okay (msg : string)
| Fail (msg : string)
| Warn (msg : string)
| Info (msg : string)
| StatusLine (key status : string)
| Call (fn : string).

(** ** The monad *)

Inductive result (A : Type) : Type :=
| Returned (a : A)
| Raised (e : exn).
Arguments Returned {A} a.
Arguments Raised {A} e.

Definition M (A : Type) : Type := list event * result A.

Definition ret {A} (a : A) : M A := ([], Returned a).

Definition bind {A B} (m : M A) (k : A -> M B) : M B :=
  match m with
  | (l1, Returned a) => let '(l2, r) := k a in (l1 ++ l2, r)
  | (l1, Raised e) => (l1, Raised e)
  end.

Definition raise {A} (e : exn) : M A := ([], Raised e).

Definition emit (ev : event) : M unit := ([ev], Returned tt).

#[global] Instance M_ret : MRet M := @ret.
#[global] Instance M_bind : MBind M := fun A B k m => bind m k.

(** First clause whose class matches the exception, as Python selects
    it. *)
Fixpoint select_handler {A} (e : exn) (hs : list (exc_class * (exn -> M A)))
  : option (exn -> M A) :=
  match hs with
  | [] => None
  | (c, h) :: hs' => if isinstance e c then Some h else select_handler e hs'
  end.

(** [try: body except C1: h1 except C2: h2 ...].  An exception raised
    by a handler is not offered to the sibling clauses. *)
Definition try_ {A} (body : M A) (hs : list (exc_class * (exn -> M A))) : M A :=
  match body with
  | (l1, Returned a) => (l1, Returned a)
  | (l1, Raised e) =>
      match select_handler e hs with
      | Some h => let '(l2, r) := h e in (l1 ++ l2, r)
      | None => (l1, Raised e)
      end
  end.

Definition log_of {A} (m : M A) : list event := fst m.
Definition result_of {A} (m : M A) : result A := snd m.

(** ** Output helpers (lines 20-36) *)

Definition ok (msg : string) : M unit := emit (Okay msg).
Definition fail (msg : string) : M unit := emit (Fail msg).
Definition warn (msg : string) : M unit := emit (Warn msg).
Definition info (msg : string) : M unit := emit (Info msg).
Definition header (msg : string) : M unit := emit (Header msg).
Definition separator : M unit := emit Separator.
Definition print (msg : string) : M unit := emit (Print msg).

(** ** The environment *)

Inductive outcome (A : Type) : Type :=
| Ok (a : A)
| Raises (e : lib_error).
Arguments Ok {A} a.
Arguments Raises {A} e.

(** Installed libraries and hardware, as the script observes them.
    Every field is the behaviour of one kind of interaction; the script
    reads the environment and never changes it. *)
Record Env : Type := {
  (** [import m] and [__import__(m)] *)
  import_module : string -> outcome unit;
  (** [from m import n1, n2, ...] *)
  from_import : string -> list string -> outcome unit;
  (** whether an imported module carries the attribute; reading a
      missing attribute raises [AttributeError], which is not an
      [ImportError] *)
  has_attr : string -> string -> bool;
  (** [torch.cuda.is_available()] *)
  cuda_is_available : outcome bool;
  (** [torch.cuda.device_count()] *)
  cuda_device_count : outcome nat;
  (** [torch.cuda.get_device_name(i)] *)
  cuda_get_device_name : nat -> outcome unit;
  (** [torch.cuda.get_device_properties(i).total_memory / 1e9] *)
  cuda_get_device_properties : nat -> outcome unit;
  (** [torch.cuda.get_device_capability()], major and minor *)
  cuda_get_device_capability : outcome (nat * nat);
  (** [torch.randn] on the device, by the shape requested *)
  torch_randn : list nat -> outcome unit;
  (** [torch.matmul(x, x)] *)
  torch_matmul : outcome unit;
  (** [[f.name for f in Format]] *)
  format_names : outcome unit;
  (** [te.Linear(i, o).cuda()] *)
  te_Linear_cuda : nat -> nat -> outcome unit;
  (** [layer(x)] and the read of [y.shape] *)
  te_layer_forward : outcome unit;
  (** the comprehension over [dir(mtq)]; the number of names kept *)
  mtq_quant_configs : outcome nat;
  (** [hasattr(megatron, '__file__') and megatron.__file__], as a
      truth value *)
  megatron_file : outcome bool;
  (** [os.path.dirname(megatron.__file__)] *)
  megatron_dirname : outcome unit;
  (** [hasattr(megatron, '__path__')] *)
  megatron_has_path : outcome bool;
  (** [list(megatron.__path__)[0]] *)
  megatron_path_first : outcome unit;
  (** [DelayedScaling(fp8_format=Format.HYBRID, ...)] *)
  make_DelayedScaling : outcome unit;
  (** [with te.fp8_autocast(...): y = model(x)] and the read of
      [y.shape] *)
  fp8_autocast_forward : outcome unit
}.

Definition lift {A} (o : outcome A) : M A :=
  match o with
  | Ok a => ret a
  | Raises e => raise (exn_of_lib e)
  end.

(** Read of [m.a]: [AttributeError] when absent. *)
Definition getattr (env : Env) (m a : string) : M unit :=
  if has_attr env m a then ret tt else raise OtherException.

(** [for x in xs: acc = body(acc, x)], left to right, stopping at the
    first exception. *)
Fixpoint for_each {X S} (xs : list X) (acc : S) (body : S -> X -> M S) : M S :=
  match xs with
  | [] => ret acc
  | x :: xs' => acc' ← body acc x; for_each xs' acc' body
  end.

(** ** Probe 1: [check_pytorch] (lines 38-64) *)

Definition check_pytorch (env : Env) : M bool :=
  header "1. PyTorch";;
  try_
    (lift (import_module env "torch");;
     getattr env "torch" "__version__";;
     ok "PyTorch {torch.__version__}";;
     available ← lift (cuda_is_available env);
     if (available : bool) then
       getattr env "torch.version" "cuda";;
       ok "CUDA available: {torch.version.cuda}";;
       gpu_count ← lift (cuda_device_count env);
       ok "GPU count: {gpu_count}";;
       for_each (seq 0 gpu_count) tt
         (fun _ i =>
            lift (cuda_get_device_name env i);;
            lift (cuda_get_device_properties env i);;
            info "  GPU {i}: {gpu_name} ({gpu_mem:.1f} GB)");;
       lift (torch_randn env [100; 100]);;
       lift (torch_matmul env);;
       ok "CUDA tensor operations working";;
       mret true
     else
       fail "CUDA not available";;
       mret false)
    [(ExcException, fun e => fail "PyTorch: {e}";; mret false)].

(** ** Probe 2: [check_transformer_engine] (lines 66-113) *)

(** The four guarded sub-probes, each a [try] block of the source. *)

(** FP8 recipes (lines 78-83). *)
Definition te_recipes (env : Env) : M unit :=
  try_
    (lift (from_import env "transformer_engine.common.recipe"
             ["DelayedScaling"; "Format"]);;
     ok "FP8 DelayedScaling recipe available";;
     lift (format_names env);;
     ok "FP8 formats: {[f.name for f in Format]}")
    [(ExcImportError, fun e => warn "FP8 recipes: {e}")].

(** FP8 state manager (lines 86-90). *)
Definition te_state_manager (env : Env) : M unit :=
  try_
    (lift (from_import env "transformer_engine.pytorch.fp8"
             ["FP8GlobalStateManager"]);;
     ok "FP8GlobalStateManager available")
    [(ExcImportError,
      fun _ => warn "FP8GlobalStateManager not available in this version")].

(** TE layers (lines 93-97). *)
Definition te_layers (env : Env) : M unit :=
  try_
    (lift (from_import env "transformer_engine.pytorch"
             ["Linear"; "LayerNorm"; "TransformerLayer"]);;
     ok "TE layers available (Linear, LayerNorm, TransformerLayer)")
    [(ExcImportError, fun e => warn "Some TE layers not available: {e}")].

Definition te_forward_ok : string :=
  "TE Linear forward pass working (output shape: {y.shape})".
Definition te_forward_warn : string := "TE forward pass test: {e}".

(** Basic forward pass (lines 100-108); the [if] has no [else]. *)
Definition te_forward_pass (env : Env) : M unit :=
  try_
    (lift (import_module env "torch");;
     available ← lift (cuda_is_available env);
     if (available : bool) then
       lift (te_Linear_cuda env 256 256);;
       lift (torch_randn env [8; 256]);;
       lift (te_layer_forward env);;
       ok te_forward_ok
     else mret tt)
    [(ExcException, fun e => warn te_forward_warn)].

Definition check_transformer_engine (env : Env) : M bool :=
  header "2. Transformer Engine";;
  try_
    (lift (import_module env "transformer_engine");;
     getattr env "transformer_engine" "__version__";;
     ok "Transformer Engine {transformer_engine.__version__}";;
     (* PyTorch integration: guarded by the outer block only *)
     lift (import_module env "transformer_engine.pytorch");;
     ok "PyTorch integration available";;
     te_recipes env;;
     te_state_manager env;;
     te_layers env;;
     te_forward_pass env;;
     mret true)
    [(ExcException, fun e => fail "Transformer Engine: {e}";; mret false)].

(** ** Probe 3: [check_modelopt] (lines 115-153) *)

(** Torch quantization module (lines 130-138). *)
Definition modelopt_quantization (env : Env) : M unit :=
  try_
    (lift (import_module env "modelopt.torch.quantization");;
     ok "Quantization module available";;
     lift (mtq_quant_configs env);;
     info "  Available configs: {len(quant_configs)} found")
    [(ExcException, fun e => warn "Quantization module: {e}")].

(** Export module (lines 141-145). *)
Definition modelopt_export (env : Env) : M unit :=
  try_
    (lift (import_module env "modelopt.torch.export");;
     ok "Export module available")
    [(ExcImportError, fun _ => info "Export module not available (optional)")].

(** The [warnings.catch_warnings()] block only filters warnings and
    lets every exception through; it is left out. *)
Definition check_modelopt (env : Env) : M bool :=
  header "3. ModelOpt";;
  try_
    (lift (import_module env "modelopt");;
     getattr env "modelopt" "__version__";;
     ok "ModelOpt {modelopt.__version__}";;
     modelopt_quantization env;;
     modelopt_export env;;
     mret true)
    [(ExcImportError, fun e => fail "ModelOpt not installed: {e}";; mret false);
     (ExcException,
      fun e => warn "ModelOpt has issues but is installed: {e}";; mret true)].

(** ** Probe 4: [check_megatron_lm] (lines 155-205) *)

(** Core module (lines 164-169): the only sub-probe that assigns
    [success]; the value returned is [success] after the block. *)
Definition megatron_core (env : Env) (success : bool) : M bool :=
  try_
    (lift (from_import env "megatron.core" ["parallel_state"]);;
     ok "Megatron Core parallel_state available";;
     mret success)
    [(ExcImportError, fun e => warn "Megatron Core: {e}";; mret false)].

(** Tensor parallel (lines 172-176). *)
Definition megatron_tensor_parallel (env : Env) : M unit :=
  try_
    (lift (from_import env "megatron.core.tensor_parallel" ["layers"]);;
     ok "Tensor Parallel layers available")
    [(ExcImportError, fun e => warn "Tensor Parallel: {e}")].

(** Transformer module (lines 179-183). *)
Definition megatron_transformer (env : Env) : M unit :=
  try_
    (lift (from_import env "megatron.core.transformer" ["TransformerConfig"]);;
     ok "TransformerConfig available")
    [(ExcImportError, fun e => warn "TransformerConfig: {e}")].

(** Models (lines 186-190). *)
Definition megatron_models (env : Env) : M unit :=
  try_
    (lift (from_import env "megatron.core.models.gpt" ["GPTModel"]);;
     ok "GPTModel available")
    [(ExcImportError,
      fun e => info "GPTModel: {e} (may require initialization)")].

(** Installation path (lines 193-200), under a bare [except]. *)
Definition megatron_install_path (env : Env) : M unit :=
  try_
    (has_file ← lift (megatron_file env);
     if (has_file : bool) then
       lift (megatron_dirname env);;
       info "  Installed at: {megatron_path}"
     else
       has_path ← lift (megatron_has_path env);
       if (has_path : bool) then
         lift (megatron_path_first env);;
         info "  Installed at: {list(megatron.__path__)[0]}"
       else mret tt)
    [(ExcBare, fun _ => mret tt)].

Definition check_megatron_lm (env : Env) : M bool :=
  header "4. Megatron-LM";;
  let success := true in
  try_
    (lift (import_module env "megatron");;
     ok "Megatron package importable";;
     success ← megatron_core env success;
     megatron_tensor_parallel env;;
     megatron_transformer env;;
     megatron_models env;;
     megatron_install_path env;;
     mret (success : bool))
    [(ExcException, fun e => fail "Megatron-LM: {e}";; mret false)].

(** ** Probe 5: [check_additional_tools] (lines 208-229) *)

(** The [tools] dictionary, in insertion order. *)
Definition tools : list (string * string) :=
  [("jupyter", "Jupyter");
   ("tensorboard", "TensorBoard");
   ("wandb", "Weights & Biases");
   ("datasets", "HuggingFace Datasets");
   ("transformers", "HuggingFace Transformers")].

Definition check_additional_tools (env : Env) : M bool :=
  header "5. Additional Tools";;
  available ←
    for_each tools 0%nat
      (fun available '(module, name) =>
         try_
           (lift (import_module env module);;
            ok name;;
            mret (available + 1)%nat)
           [(ExcImportError,
             fun _ => info (name +:+ " not installed (optional)");;
                      mret available)]);
  mret (0 <? available)%nat.

(** ** Probe 6: [run_fp8_test] (lines 231-270) *)

Definition run_fp8_test (env : Env) : M bool :=
  header "6. FP8 Functional Test";;
  try_
    (lift (import_module env "torch");;
     lift (import_module env "transformer_engine.pytorch");;
     lift (from_import env "transformer_engine.common.recipe"
             ["DelayedScaling"; "Format"]);;
     available ← lift (cuda_is_available env);
     if negb available then
       warn "Skipping FP8 test - no GPU available";;
       mret false
     else
       capability ← lift (cuda_get_device_capability env);
       (if (fst capability <? 9)%nat then
          info "GPU compute capability {capability[0]}.{capability[1]} - FP8 requires sm_89+ (H100/Ada)";;
          info "FP8 will work in emulation mode on older GPUs"
        else mret tt);;
       lift (make_DelayedScaling env);;
       ok "FP8 recipe created";;
       lift (te_Linear_cuda env 512 512);;
       lift (torch_randn env [8; 32; 512]);;
       lift (fp8_autocast_forward env);;
       ok "FP8 forward pass completed (output shape: {y.shape})";;
       mret true)
    [(ExcException, fun e => warn "FP8 test: {e}";; mret false)].

(** ** [main] (lines 272-314) *)

Definition required : list string :=
  ["pytorch"; "transformer_engine"; "megatron_lm"].
Definition optional : list string :=
  ["modelopt"; "additional_tools"; "fp8_test"].

(** [results[k]]: [KeyError] on a missing key. *)
Definition getitem (results : gmap string bool) (k : string) : M bool :=
  match results !! k with
  | Some b => mret b
  | None => raise (KeyError k)
  end.

(** [all(results[k] for k in ks)]: the generator is consumed up to the
    first false value. *)
Fixpoint all_results (results : gmap string bool) (ks : list string) : M bool :=
  match ks with
  | [] => mret true
  | k :: ks' =>
      b ← getitem results k;
      if (b : bool) then all_results results ks' else mret false
  end.

(** [sys.exit(code)] *)
Definition sys_exit {A} (code : Z) : M A := raise (SystemExit code).

(** A call of a probe from [main]; the call is recorded in the log so
    that the order of invocation can be read off a run. *)
Definition invoke {A} (fn : string) (probe : M A) : M A :=
  emit (Call fn);; probe.

(** Lines 277-285: the results dictionary and the six calls. *)
Definition main_checks (env : Env) : M (gmap string bool) :=
  let results : gmap string bool := ∅ in
  b ← invoke "check_pytorch" (check_pytorch env);
  let results := <["pytorch" := b]> results in
  b ← invoke "check_transformer_engine" (check_transformer_engine env);
  let results := <["transformer_engine" := b]> results in
  b ← invoke "check_modelopt" (check_modelopt env);
  let results := <["modelopt" := b]> results in
  b ← invoke "check_megatron_lm" (check_megatron_lm env);
  let results := <["megatron_lm" := b]> results in
  b ← invoke "check_additional_tools" (check_additional_tools env);
  let results := <["additional_tools" := b]> results in
  b ← invoke "run_fp8_test" (run_fp8_test env);
  let results := <["fp8_test" := b]> results in
  mret results.

(** Lines 287-314: the summary and the verdict. *)
Definition main_summary (results : gmap string bool) : M unit :=
  separator;;
  header "SUMMARY";;
  required_pass ← all_results results required;
  print "\n  Required components:";;
  for_each required tt
    (fun _ k =>
       b ← getitem results k;
       emit (StatusLine k (if (b : bool) then "PASS" else "FAIL")));;
  print "\n  Optional components:";;
  for_each optional tt
    (fun _ k =>
       b ← getitem results k;
       emit (StatusLine k (if (b : bool) then "PASS" else "NOT AVAILABLE")));;
  separator;;
  (if (required_pass : bool) then
     print "\nENVIRONMENT READY FOR NVFP4 TRAINING!"
   else
     print "\nENVIRONMENT HAS ISSUES - See failures above";;
     sys_exit 1);;
  separator.

Definition main (env : Env) : M unit :=
  separator;;
  print "GTC NVFP4 TRAINING LAB - COMPREHENSIVE VALIDATION";;
  separator;;
  results ← main_checks env;
  main_summary results.

(** Exit status of the interpreter running [main()] as the script
    does: 0 when [main] returns, the code given to [sys.exit], and 1
    when any other exception reaches the top level. *)
Definition exit_status (run : M unit) : Z :=
  match result_of run with
  | Returned _ => 0
  | Raised (SystemExit code) => code
  | Raised _ => 1
  end.

(** The probes invoked during a run, in order. *)
Definition calls (l : list event) : list string :=
  omap (fun ev => match ev with Call fn => Some fn | _ => None end) l.

(** ** Sample environments *)

(** An environment given by what its imports do, whether an
    accelerator is reported, and what building a TE layer on the device
    does; every other interaction succeeds, with one device of compute
    capability 9.0. *)
Definition make_env
    (imports : string -> outcome unit)
    (from_imports : string -> outcome unit)
    (available : outcome bool)
    (linear : outcome unit) : Env := {|
  import_module := imports;
  from_import := fun m _ => from_imports m;
  has_attr := fun _ _ => true;
  cuda_is_available := available;
  cuda_device_count := Ok 1%nat;
  cuda_get_device_name := fun _ => Ok tt;
  cuda_get_device_properties := fun _ => Ok tt;
  cuda_get_device_capability := Ok (9, 0)%nat;
  torch_randn := fun _ => Ok tt;
  torch_matmul := Ok tt;
  format_names := Ok tt;
  te_Linear_cuda := fun _ _ => linear;
  te_layer_forward := Ok tt;
  mtq_quant_configs := Ok 3%nat;
  megatron_file := Ok true;
  megatron_dirname := Ok tt;
  megatron_has_path := Ok true;
  megatron_path_first := Ok tt;
  make_DelayedScaling := Ok tt;
  fp8_autocast_forward := Ok tt
|}.

(** Every module imports. *)
Definition all_installed : string -> outcome unit := fun _ => Ok tt.

(** Every module imports, except that importing one of [ms] behaves as
    [o]. *)
Definition except_for (ms : list string) (o : outcome unit)
  : string -> outcome unit :=
  fun m => if decide (m ∈ ms) then o else Ok tt.

(** Everything installed and working. *)
Definition env_ready : Env :=
  make_env all_installed all_installed (Ok true) (Ok tt).

(** Everything installed, but importing [wandb] raises an exception
    that is not an [ImportError] (for instance a [TypeError] raised
    while the package initialises). *)
Definition env_tool_crash : Env :=
  make_env (except_for ["wandb"] (Raises LibOtherError)) all_installed
    (Ok true) (Ok tt).

(** The extension imports, its PyTorch integration does not. *)
Definition env_te_no_pytorch : Env :=
  make_env (except_for ["transformer_engine.pytorch"] (Raises LibImportError))
    all_installed (Ok true) (Ok tt).

(** The extension and its PyTorch integration import; the names of the
    recipes, of the state manager and of the layers cannot be imported,
    and building a layer on the device fails. *)
Definition env_te_degraded : Env :=
  make_env all_installed
    (except_for ["transformer_engine.common.recipe";
                 "transformer_engine.pytorch.fp8";
                 "transformer_engine.pytorch"] (Raises LibImportError))
    (Ok true) (Raises LibOtherError).

(** The toolkit imports; its quantization and export submodules both
    raise exceptions that are not [ImportError]. *)
Definition env_modelopt_degraded : Env :=
  make_env
    (except_for ["modelopt.torch.quantization"; "modelopt.torch.export"]
       (Raises LibOtherError))
    all_installed (Ok true) (Ok tt).

(** Megatron and its parallel state import; importing the tensor
    parallel layers raises an exception that is not an [ImportError]. *)
Definition env_megatron_tp_broken : Env :=
  make_env all_installed
    (except_for ["megatron.core.tensor_parallel"] (Raises LibOtherError))
    (Ok true) (Ok tt).

(** Megatron and its parallel state import; the three advisory
    submodules are absent. *)
Definition env_megatron_advisory_absent : Env :=
  make_env all_installed
    (except_for ["megatron.core.tensor_parallel"; "megatron.core.transformer";
                 "megatron.core.models.gpt"] (Raises LibImportError))
    (Ok true) (Ok tt).

(** No accelerator, the extension importable. *)
Definition env_no_gpu : Env :=
  make_env all_installed all_installed (Ok false) (Ok tt).

(** No accelerator, and the PyTorch integration of the extension not
    importable. *)
Definition env_no_gpu_no_te : Env :=
  make_env (except_for ["transformer_engine.pytorch"] (Raises LibImportError))
    all_installed (Ok false) (Ok tt).

(** ** Vocabulary of the properties *)

(** [m] returns a value: no exception leaves it. *)
Definition never_raises {A} (m : M A) : Prop :=
  exists a, result_of m = Returned a.

(** Whatever [m] raises is an instance of [Exception]. *)
Definition exception_only {A} (m : M A) : Prop :=
  forall e, result_of m = Raised e -> isinstance e ExcException = true.

(** Every event [m] writes satisfies [P]. *)
Definition log_all {A} (P : event -> Prop) (m : M A) : Prop :=
  Forall P (log_of m).

(** No probe records a call: calls are recorded by [main] alone. *)
Definition not_call (ev : event) : Prop :=
  match ev with Call _ => False | _ => True end.

(** The messages of the forward-pass sub-probe (lines 106 and 108),
    under any severity. *)
Definition about_forward_pass (ev : event) : bool :=
  match ev with
  | Okay msg | Fail msg | Warn msg | Info msg =>
      bool_decide (msg = te_forward_ok) || bool_decide (msg = te_forward_warn)
  | _ => false
  end.

Definition succeeds {A} (o : outcome A) : bool :=
  match o with Ok _ => true | Raises _ => false end.

(** The interaction raises [ImportError]: the library is absent. *)
Definition absent {A} (o : outcome A) : bool :=
  match o with Raises LibImportError => true | _ => false end.

(** The interaction raises something other than [ImportError]. *)
Definition broken {A} (o : outcome A) : bool :=
  match o with Raises LibOtherError => true | _ => false end.

(** [torch.cuda.is_available()] returned true. *)
Definition accelerator_present (env : Env) : bool :=
  match cuda_is_available env with Ok true => true | _ => false end.

(** What [check_transformer_engine] needs in order to pass. *)
Definition te_passes (env : Env) : bool :=
  succeeds (import_module env "transformer_engine")
  && has_attr env "transformer_engine" "__version__"
  && succeeds (import_module env "transformer_engine.pytorch")
  && negb (broken (from_import env "transformer_engine.common.recipe"
                     ["DelayedScaling"; "Format"]))
  && negb (succeeds (from_import env "transformer_engine.common.recipe"
                       ["DelayedScaling"; "Format"])
           && broken (format_names env))
  && negb (broken (from_import env "transformer_engine.pytorch.fp8"
                     ["FP8GlobalStateManager"]))
  && negb (broken (from_import env "transformer_engine.pytorch"
                     ["Linear"; "LayerNorm"; "TransformerLayer"])).

(** What [check_megatron_lm] needs in order to pass. *)
Definition megatron_passes (env : Env) : bool :=
  succeeds (import_module env "megatron")
  && succeeds (from_import env "megatron.core" ["parallel_state"])
  && negb (broken (from_import env "megatron.core.tensor_parallel" ["layers"]))
  && negb (broken (from_import env "megatron.core.transformer"
                     ["TransformerConfig"]))
  && negb (broken (from_import env "megatron.core.models.gpt" ["GPTModel"])).

(** What [run_fp8_test] needs in order to pass. *)
Definition fp8_passes (env : Env) : bool :=
  succeeds (import_module env "torch")
  && succeeds (import_module env "transformer_engine.pytorch")
  && succeeds (from_import env "transformer_engine.common.recipe"
                 ["DelayedScaling"; "Format"])
  && accelerator_present env
  && succeeds (cuda_get_device_capability env)
  && succeeds (make_DelayedScaling env)
  && succeeds (te_Linear_cuda env 512 512)
  && succeeds (torch_randn env [8; 32; 512])
  && succeeds (fp8_autocast_forward env).

(** The modules whose import [check_additional_tools] lets escape. *)
Definition tool_import_broken (env : Env) : bool :=
  existsb (fun t => broken (import_module env (fst t))) tools.

Definition tools_available (env : Env) : bool :=
  existsb (fun t => succeeds (import_module env (fst t))) tools.

(** The dictionary [main] has built when the six probes have returned
    [b1] ... [b6], in the order of the calls. *)
Definition results_of (b1 b2 b3 b4 b5 b6 : bool) : gmap string bool :=
  <["fp8_test" := b6]>
    (<["additional_tools" := b5]>
       (<["megatron_lm" := b4]>
          (<["modelopt" := b3]>
             (<["transformer_engine" := b2]>
                (<["pytorch" := b1]> ∅))))).

Definition fp8_skip_log : list event :=
  [Header "6. FP8 Functional Test";
   Warn "Skipping FP8 test - no GPU available"].

Definition fp8_caught_log : list event :=
  [Header "6. FP8 Functional Test"; Warn "FP8 test: {e}"].

(** ** Vocabulary of the further properties *)

(** The line [check_pytorch] prints for each device (line 52). *)
Definition gpu_line : event :=
  Info "  GPU {i}: {gpu_name} ({gpu_mem:.1f} GB)".

(** The loop of lines 49-52 over the device indices [xs]. *)
Definition enumerate_devices (env : Env) (xs : list nat) : M unit :=
  for_each xs tt
    (fun _ i =>
       lift (cuda_get_device_name env i);;
       lift (cuda_get_device_properties env i);;
       info "  GPU {i}: {gpu_name} ({gpu_mem:.1f} GB)").

(** Name and properties of device [i] can be read. *)
Definition device_ok (env : Env) (i : nat) : bool :=
  succeeds (cuda_get_device_name env i)
  && succeeds (cuda_get_device_properties env i).

(** The devices [torch.cuda.device_count()] announces can all be
    described. *)
Definition devices_ok (env : Env) : bool :=
  match cuda_device_count env with
  | Ok n => forallb (device_ok env) (seq 0 n)
  | Raises _ => false
  end.

(** What [check_pytorch] needs in order to pass. *)
Definition pytorch_passes (env : Env) : bool :=
  succeeds (import_module env "torch")
  && has_attr env "torch" "__version__"
  && accelerator_present env
  && has_attr env "torch.version" "cuda"
  && devices_ok env
  && succeeds (torch_randn env [100; 100])
  && succeeds (torch_matmul env).

(** An error line, printed by [fail]. *)
Definition is_fail (ev : event) : bool :=
  match ev with Fail _ => true | _ => false end.

Definition is_warn (ev : event) : bool :=
  match ev with Warn _ => true | _ => false end.

Definition not_fail (ev : event) : Prop := is_fail ev = false.

(** A computation of a probe that either printed no error line or
    returned false. *)
Definition fail_means_false (m : M bool) : Prop :=
  log_all not_fail m \/ result_of m = Returned false.

(** The line [check_additional_tools] prints for one entry of [tools]
    whose import does not escape (lines 224 and 227). *)
Definition tool_line (env : Env) (t : string * string) : event :=
  if succeeds (import_module env (fst t)) then Okay (snd t)
  else Info (snd t +:+ " not installed (optional)").

(** The entries of [ts] before the first one whose import raises
    something other than [ImportError]. *)
Fixpoint tools_before_crash (env : Env) (ts : list (string * string))
  : list (string * string) :=
  match ts with
  | [] => []
  | t :: ts' =>
      if broken (import_module env (fst t)) then []
      else t :: tools_before_crash env ts'
  end.

Definition ready_line : event :=
  Print "\nENVIRONMENT READY FOR NVFP4 TRAINING!".
Definition issues_line : event :=
  Print "\nENVIRONMENT HAS ISSUES - See failures above".

(** The summary [main_summary] prints for the six results (lines
    288-306), up to the separator before the verdict. *)
Definition summary_lines (b1 b2 b3 b4 b5 b6 : bool) : list event :=
  [Separator; Header "SUMMARY";
   Print "\n  Required components:";
   StatusLine "pytorch" (if b1 then "PASS" else "FAIL");
   StatusLine "transformer_engine" (if b2 then "PASS" else "FAIL");
   StatusLine "megatron_lm" (if b4 then "PASS" else "FAIL");
   Print "\n  Optional components:";
   StatusLine "modelopt" (if b3 then "PASS" else "NOT AVAILABLE");
   StatusLine "additional_tools" (if b5 then "PASS" else "NOT AVAILABLE");
   StatusLine "fp8_test" (if b6 then "PASS" else "NOT AVAILABLE");
   Separator].

(** The two notes [run_fp8_test] prints below compute capability 9
    (lines 246-247). *)
Definition emulation_notes : list event :=
  [Info "GPU compute capability {capability[0]}.{capability[1]} - FP8 requires sm_89+ (H100/Ada)";
   Info "FP8 will work in emulation mode on older GPUs"].

(** An environment like [env_ready] with [n] devices of compute
    capability [major].[minor]. *)
Definition env_devices (n major minor : nat) : Env := {|
  import_module := all_installed;
  from_import := fun m _ => all_installed m;
  has_attr := fun _ _ => true;
  cuda_is_available := Ok true;
  cuda_device_count := Ok n;
  cuda_get_device_name := fun _ => Ok tt;
  cuda_get_device_properties := fun _ => Ok tt;
  cuda_get_device_capability := Ok (major, minor);
  torch_randn := fun _ => Ok tt;
  torch_matmul := Ok tt;
  format_names := Ok tt;
  te_Linear_cuda := fun _ _ => Ok tt;
  te_layer_forward := Ok tt;
  mtq_quant_configs := Ok 3%nat;
  megatron_file := Ok true;
  megatron_dirname := Ok tt;
  megatron_has_path := Ok true;
  megatron_path_first := Ok tt;
  make_DelayedScaling := Ok tt;
  fp8_autocast_forward := Ok tt
|}.

(** [torch] does not import. *)
Definition env_no_torch : Env :=
  make_env (except_for ["torch"] (Raises LibImportError)) all_installed
    (Ok true) (Ok tt).

(** Megatron imports, its parallel state is absent. *)
Definition env_megatron_no_parallel_state : Env :=
  make_env all_installed
    (except_for ["megatron.core"] (Raises LibImportError)) (Ok true) (Ok tt).

(** The recipes of the extension raise an exception that is not an
    [ImportError]. *)
Definition env_te_recipes_broken : Env :=
  make_env all_installed
    (except_for ["transformer_engine.common.recipe"] (Raises LibOtherError))
    (Ok true) (Ok tt).

(** No auxiliary tool is installed. *)
Definition env_no_tools : Env :=
  make_env
    (except_for ["jupyter"; "tensorboard"; "wandb"; "datasets"; "transformers"]
       (Raises LibImportError))
    all_installed (Ok true) (Ok tt).

(** The keys of the results dictionary with the probe [main] stores
    under each (lines 280-285). *)
Definition checks : list (string * (Env -> M bool)) :=
  [("pytorch", check_pytorch);
   ("transformer_engine", check_transformer_engine);
   ("modelopt", check_modelopt);
   ("megatron_lm", check_megatron_lm);
   ("additional_tools", check_additional_tools);
   ("fp8_test", run_fp8_test)].

(** Neither of the two verdict lines. *)
Definition not_verdict (ev : event) : Prop :=
  ev <> ready_line /\ ev <> issues_line.

(** When [m] returns false, the last line it printed satisfies [P]. *)
Definition false_ends_with (P : event -> bool) (m : M bool) : Prop :=
  result_of m = Returned false ->
  exists ev, last (log_of m) = Some ev /\ P ev = true.

(** What the recipe sub-probe prints when it does not raise (lines
    78-83): its two success lines, or the success line of the import
    and the warning, or the warning alone. *)
Definition te_recipes_lines (env : Env) : list event :=
  match from_import env "transformer_engine.common.recipe"
          ["DelayedScaling"; "Format"] with
  | Ok _ =>
      Okay "FP8 DelayedScaling recipe available"
      :: (if succeeds (format_names env)
          then [Okay "FP8 formats: {[f.name for f in Format]}"]
          else [Warn "FP8 recipes: {e}"])
  | Raises _ => [Warn "FP8 recipes: {e}"]
  end.

(** What the state manager sub-probe prints when it does not raise
    (lines 86-90). *)
Definition te_state_manager_lines (env : Env) : list event :=
  if succeeds (from_import env "transformer_engine.pytorch.fp8"
                 ["FP8GlobalStateManager"])
  then [Okay "FP8GlobalStateManager available"]
  else [Warn "FP8GlobalStateManager not available in this version"].

(** What the layer sub-probe prints when it does not raise (lines
    93-97). *)
Definition te_layers_lines (env : Env) : list event :=
  if succeeds (from_import env "transformer_engine.pytorch"
                 ["Linear"; "LayerNorm"; "TransformerLayer"])
  then [Okay "TE layers available (Linear, LayerNorm, TransformerLayer)"]
  else [Warn "Some TE layers not available: {e}"].

(** What the forward-pass sub-probe prints (lines 100-108): nothing
    when [torch] reports no accelerator, the success line when the
    layer is built and run, and the warning when anything in the block
    raises. *)
Definition te_forward_lines (env : Env) : list event :=
  match import_module env "torch", cuda_is_available env with
  | Ok _, Ok false => []
  | Ok _, Ok true =>
      if succeeds (te_Linear_cuda env 256 256)
         && succeeds (torch_randn env [8; 256])
         && succeeds (te_layer_forward env)
      then [Okay te_forward_ok]
      else [Warn te_forward_warn]
  | _, _ => [Warn te_forward_warn]
  end.

(** * Properties *)

(** ** Equations of the monad *)

Lemma mbind_unfold {A B} (m : M A) (k : A -> M B) : (m ≫= k) = bind m k.
Proof. reflexivity. Qed.

Lemma mret_unfold {A} (a : A) : (mret a : M A) = ret a.
Proof. reflexivity. Qed.

Lemma result_of_bind {A B} (m : M A) (k : A -> M B) :
  result_of (bind m k) =
  match result_of m with
  | Returned a => result_of (k a)
  | Raised e => Raised e
  end.
Proof.
  destruct m as [l [a|e]]; simpl; [|reflexivity].
  destruct (k a); reflexivity.
Qed.

Lemma log_of_bind {A B} (m : M A) (k : A -> M B) :
  log_of (bind m k) =
  log_of m ++ match result_of m with
              | Returned a => log_of (k a)
              | Raised _ => []
              end.
Proof.
  destruct m as [l [a|e]]; simpl.
  - destruct (k a); reflexivity.
  - symmetry; apply app_nil_r.
Qed.

Lemma result_of_try {A} (body : M A) hs :
  result_of (try_ body hs) =
  match result_of body with
  | Returned a => Returned a
  | Raised e =>
      match select_handler e hs with
      | Some h => result_of (h e)
      | None => Raised e
      end
  end.
Proof.
  destruct body as [l [a|e]]; simpl; [reflexivity|].
  destruct (select_handler e hs) as [h|]; [|reflexivity].
  destruct (h e); reflexivity.
Qed.

Lemma log_of_try {A} (body : M A) hs :
  log_of (try_ body hs) =
  log_of body ++ match result_of body with
                 | Returned _ => []
                 | Raised e =>
                     match select_handler e hs with
                     | Some h => log_of (h e)
                     | None => []
                     end
                 end.
Proof.
  destruct body as [l [a|e]]; simpl.
  - symmetry; apply app_nil_r.
  - destruct (select_handler e hs) as [h|]; simpl.
    + destruct (h e); reflexivity.
    + symmetry; apply app_nil_r.
Qed.

(** ** Which computations raise, and what *)

Lemma never_raises_ret {A} (a : A) : never_raises (ret a).
Proof. exists a; reflexivity. Qed.

Lemma never_raises_emit ev : never_raises (emit ev).
Proof. exists tt; reflexivity. Qed.

Lemma never_raises_bind {A B} (m : M A) (k : A -> M B) :
  never_raises m -> (forall a, never_raises (k a)) -> never_raises (bind m k).
Proof.
  intros [a Ha] Hk. destruct (Hk a) as [b Hb].
  exists b. rewrite result_of_bind, Ha. exact Hb.
Qed.

Lemma never_raises_exception_only {A} (m : M A) :
  never_raises m -> exception_only m.
Proof. intros [a Ha] e He. rewrite Ha in He. discriminate. Qed.

Lemma exception_only_lift {A} (o : outcome A) : exception_only (lift o).
Proof.
  intros e. destruct o as [a|[]]; simpl; intros He;
    try discriminate; injection He as <-; reflexivity.
Qed.

Lemma exception_only_getattr env m a : exception_only (getattr env m a).
Proof.
  intros e. unfold getattr. destruct (has_attr env m a); simpl; intros He;
    try discriminate; injection He as <-; reflexivity.
Qed.

Lemma exception_only_bind {A B} (m : M A) (k : A -> M B) :
  exception_only m -> (forall a, exception_only (k a)) ->
  exception_only (bind m k).
Proof.
  intros Hm Hk e. rewrite result_of_bind.
  destruct (result_of m) as [a|e'] eqn:Em.
  - apply Hk.
  - intros [= <-]. apply Hm, Em.
Qed.

Lemma exception_only_for_each {X S} (xs : list X) (body : S -> X -> M S) :
  (forall acc x, exception_only (body acc x)) ->
  forall acc, exception_only (for_each xs acc body).
Proof.
  intros Hbody. induction xs as [|x xs IH]; intros acc; simpl.
  - apply never_raises_exception_only, never_raises_ret.
  - rewrite mbind_unfold. apply exception_only_bind; auto.
Qed.

(** A [try] with handlers that raise only instances of [Exception]
    does so itself, when its body does. *)
Lemma exception_only_try {A} (body : M A) hs :
  exception_only body ->
  Forall (fun ch => forall e, exception_only (snd ch e)) hs ->
  exception_only (try_ body hs).
Proof.
  intros Hb Hhs e. rewrite result_of_try.
  destruct (result_of body) as [a|e'] eqn:Eb; [discriminate|].
  destruct (select_handler e' hs) as [h|] eqn:Eh.
  - assert (Hh : forall e0, exception_only (h e0)).
    { clear -Hhs Eh. induction Hhs as [|[c h'] hs Hc _ IH]; simpl in Eh.
      - discriminate.
      - destruct (isinstance e' c); [injection Eh as <-; exact Hc | auto]. }
    apply Hh.
  - intros [= <-]. apply Hb, Eb.
Qed.

(** The probe boundary: a body that raises only instances of
    [Exception], under a final [except Exception] clause whose handler
    returns, never raises. *)
Lemma never_raises_try_boundary {A} (body : M A) hs :
  exception_only body ->
  Forall (fun ch => forall e, never_raises (snd ch e)) hs ->
  Exists (fun ch => fst ch = ExcException) hs ->
  never_raises (try_ body hs).
Proof.
  intros Hb Hhs Hex. unfold never_raises. rewrite result_of_try.
  destruct (result_of body) as [a|e] eqn:Eb; [eauto|].
  specialize (Hb e Eb).
  induction Hhs as [|[c h] hs Hc Hrest IH]; simpl.
  - inversion Hex.
  - destruct (isinstance e c) eqn:Ei; [apply Hc|].
    apply IH. inversion Hex as [? ? Hc0|]; subst; [|assumption].
    simpl in Hc0; subst c. congruence.
Qed.

(** The bare [except:] with a handler that returns. *)
Lemma never_raises_try_bare {A} (body : M A) (h : exn -> M A) :
  (forall e, never_raises (h e)) ->
  never_raises (try_ body [(ExcBare, h)]).
Proof.
  intros Hh. unfold never_raises. rewrite result_of_try.
  destruct (result_of body) as [a|e]; [eauto|]. simpl. apply Hh.
Qed.

Ltac unfold_monad :=
  unfold ok, fail, warn, info, header, separator, print, sys_exit, invoke,
    mbind, M_bind, mret, M_ret in *.

(** Bodies built from library interactions, output and [try] blocks
    raise only instances of [Exception]. *)
Ltac exception_only_tac :=
  unfold_monad;
  repeat first
    [ apply exception_only_lift
    | apply exception_only_getattr
    | apply never_raises_exception_only, never_raises_emit
    | apply never_raises_exception_only, never_raises_ret
    | apply exception_only_bind; [|intros ?]
    | apply exception_only_for_each; intros ? ?
    | apply exception_only_try; [|repeat constructor; intros ?; simpl]
    | match goal with
      | |- exception_only (if ?b then _ else _) => destruct b
      | |- exception_only (let '(_, _) := ?p in _) => destruct p
      end ].

(** Handlers that print and return. *)
Ltac never_raises_tac :=
  unfold_monad;
  repeat first
    [ apply never_raises_emit
    | apply never_raises_ret
    | apply never_raises_bind; [|intros ?] ].

(** A probe whose whole body sits under [except Exception]. *)
Ltac boundary_tac :=
  unfold_monad;
  apply never_raises_bind; [apply never_raises_emit|intros _];
  apply never_raises_try_boundary;
  [ exception_only_tac
  | repeat constructor; intros ?; simpl; never_raises_tac
  | repeat first [ left; reflexivity | right ] ].

(** ** The probe boundary, probe by probe *)

Lemma check_pytorch_never_raises env : never_raises (check_pytorch env).
Proof. unfold check_pytorch. boundary_tac. Qed.

Lemma check_transformer_engine_never_raises env :
  never_raises (check_transformer_engine env).
Proof.
  unfold check_transformer_engine, te_recipes, te_state_manager, te_layers,
    te_forward_pass.
  boundary_tac.
Qed.

Lemma check_modelopt_never_raises env : never_raises (check_modelopt env).
Proof.
  unfold check_modelopt, modelopt_quantization, modelopt_export.
  boundary_tac.
Qed.

Lemma check_megatron_lm_never_raises env : never_raises (check_megatron_lm env).
Proof.
  unfold check_megatron_lm, megatron_core, megatron_tensor_parallel,
    megatron_transformer, megatron_models, megatron_install_path.
  boundary_tac.
Qed.

Lemma run_fp8_test_never_raises env : never_raises (run_fp8_test env).
Proof. unfold run_fp8_test. boundary_tac. Qed.

(** ** What a computation prints *)

Section LogAll.
Context (P : event -> Prop).

Lemma log_all_ret {A} (a : A) : log_all P (ret a).
Proof. constructor. Qed.

Lemma log_all_raise {A} e : log_all P (@raise A e).
Proof. constructor. Qed.

Lemma log_all_emit ev : P ev -> log_all P (emit ev).
Proof. intros; repeat constructor; assumption. Qed.

Lemma log_all_lift {A} (o : outcome A) : log_all P (lift o).
Proof. destruct o; constructor. Qed.

Lemma log_all_getattr env m a : log_all P (getattr env m a).
Proof. unfold getattr; destruct (has_attr env m a); constructor. Qed.

(** The continuation is only run on the value the first part
    returned. *)
Lemma log_all_bind {A B} (m : M A) (k : A -> M B) :
  log_all P m ->
  (forall a, result_of m = Returned a -> log_all P (k a)) ->
  log_all P (bind m k).
Proof.
  unfold log_all. intros Hm Hk. rewrite log_of_bind.
  apply Forall_app; split; [assumption|].
  destruct (result_of m) as [a|e]; [auto | constructor].
Qed.

(** A handler is only run on an exception the body raised. *)
Lemma log_all_try {A} (body : M A) hs :
  log_all P body ->
  (forall e h, result_of body = Raised e ->
               select_handler e hs = Some h -> log_all P (h e)) ->
  log_all P (try_ body hs).
Proof.
  unfold log_all. intros Hb Hh. rewrite log_of_try.
  apply Forall_app; split; [assumption|].
  destruct (result_of body) as [a|e]; [constructor|].
  destruct (select_handler e hs) as [h|] eqn:Eh; [eauto | constructor].
Qed.

Lemma log_all_for_each {X S} (xs : list X) (body : S -> X -> M S) :
  (forall acc x, log_all P (body acc x)) ->
  forall acc, log_all P (for_each xs acc body).
Proof.
  intros Hbody. induction xs as [|x xs IH]; intros acc; simpl.
  - apply log_all_ret.
  - rewrite mbind_unfold. apply log_all_bind; auto.
Qed.
End LogAll.

(** The handler selected from a literal list of clauses. *)
Ltac pick_handler H :=
  cbn [select_handler] in H;
  repeat match type of H with
         | context [if isinstance ?e ?c then _ else _] =>
             destruct (isinstance e c)
         end;
  first [ discriminate H | injection H as <- ].

(** Walks a computation, leaving the events to [tac]. *)
Ltac log_all_tac tac :=
  unfold_monad;
  repeat first
    [ apply log_all_ret
    | apply log_all_raise
    | apply log_all_lift
    | apply log_all_getattr
    | apply log_all_emit; tac
    | apply log_all_bind;
      [|let a := fresh "a" in let Ha := fresh "Ha" in
        intros a Ha; simpl in Ha; try discriminate Ha;
        try (injection Ha as <-)]
    | apply log_all_for_each; intros ? ?
    | apply log_all_try;
      [|let H := fresh "H" in intros ? ? _ H; pick_handler H]
    | match goal with
      | |- log_all _ (if ?b then _ else _) => destruct b
      | |- log_all _ (let '(_, _) := ?p in _) => destruct p
      | |- log_all _ (match ?r with Some _ => _ | None => _ end) =>
          destruct r
      end ].

Lemma calls_not_call l : Forall not_call l -> calls l = [].
Proof.
  induction 1 as [|ev l Hev _ IH]; [reflexivity|].
  unfold calls in *. simpl. destruct ev; simpl in *; tauto.
Qed.

Lemma calls_app l1 l2 : calls (l1 ++ l2) = calls l1 ++ calls l2.
Proof. apply omap_app. Qed.

Lemma check_pytorch_no_calls env : calls (log_of (check_pytorch env)) = [].
Proof.
  apply calls_not_call. change (log_all not_call (check_pytorch env)).
  unfold check_pytorch. log_all_tac ltac:(exact I).
Qed.

Lemma check_transformer_engine_no_calls env :
  calls (log_of (check_transformer_engine env)) = [].
Proof.
  apply calls_not_call. change (log_all not_call (check_transformer_engine env)).
  unfold check_transformer_engine, te_recipes, te_state_manager, te_layers,
    te_forward_pass.
  log_all_tac ltac:(exact I).
Qed.

Lemma check_modelopt_no_calls env : calls (log_of (check_modelopt env)) = [].
Proof.
  apply calls_not_call. change (log_all not_call (check_modelopt env)).
  unfold check_modelopt, modelopt_quantization, modelopt_export.
  log_all_tac ltac:(exact I).
Qed.

Lemma check_megatron_lm_no_calls env :
  calls (log_of (check_megatron_lm env)) = [].
Proof.
  apply calls_not_call. change (log_all not_call (check_megatron_lm env)).
  unfold check_megatron_lm, megatron_core, megatron_tensor_parallel,
    megatron_transformer, megatron_models, megatron_install_path.
  log_all_tac ltac:(exact I).
Qed.

Lemma check_additional_tools_no_calls env :
  calls (log_of (check_additional_tools env)) = [].
Proof.
  apply calls_not_call. change (log_all not_call (check_additional_tools env)).
  unfold check_additional_tools. log_all_tac ltac:(exact I).
Qed.

Lemma run_fp8_test_no_calls env : calls (log_of (run_fp8_test env)) = [].
Proof.
  apply calls_not_call. change (log_all not_call (run_fp8_test env)).
  unfold run_fp8_test. log_all_tac ltac:(exact I).
Qed.

(** ** Sub-probes *)

(** An import guarded by [except ImportError] with a handler that only
    prints: absence is absorbed, any other exception goes through. *)
Lemma optional_import_result (o : outcome unit) msg (h : exn -> M unit) :
  (forall e, result_of (h e) = Returned tt) ->
  result_of (try_ (lift o;; ok msg) [(ExcImportError, h)]) =
  if broken o then Raised OtherException else Returned tt.
Proof.
  intros Hh. rewrite result_of_try. unfold_monad. rewrite result_of_bind.
  destruct o as [[]|[]]; simpl; auto.
Qed.

Lemma te_recipes_result env :
  result_of (te_recipes env) =
  if broken (from_import env "transformer_engine.common.recipe"
               ["DelayedScaling"; "Format"])
     || succeeds (from_import env "transformer_engine.common.recipe"
                    ["DelayedScaling"; "Format"])
        && broken (format_names env)
  then Raised OtherException else Returned tt.
Proof.
  unfold te_recipes. unfold_monad.
  destruct (from_import _ _ _) as [[]|[]]; try reflexivity.
  destruct (format_names env) as [[]|[]]; reflexivity.
Qed.

Lemma te_state_manager_result env :
  result_of (te_state_manager env) =
  if broken (from_import env "transformer_engine.pytorch.fp8"
               ["FP8GlobalStateManager"])
  then Raised OtherException else Returned tt.
Proof. apply optional_import_result. reflexivity. Qed.

Lemma te_layers_result env :
  result_of (te_layers env) =
  if broken (from_import env "transformer_engine.pytorch"
               ["Linear"; "LayerNorm"; "TransformerLayer"])
  then Raised OtherException else Returned tt.
Proof. apply optional_import_result. reflexivity. Qed.

Lemma te_forward_pass_never_raises env : never_raises (te_forward_pass env).
Proof.
  unfold te_forward_pass. apply never_raises_try_boundary.
  - exception_only_tac.
  - repeat constructor; intros ?; simpl; never_raises_tac.
  - left; reflexivity.
Qed.

Lemma modelopt_quantization_never_raises env :
  never_raises (modelopt_quantization env).
Proof.
  unfold modelopt_quantization. apply never_raises_try_boundary.
  - exception_only_tac.
  - repeat constructor; intros ?; simpl; never_raises_tac.
  - left; reflexivity.
Qed.

Lemma modelopt_export_result env :
  result_of (modelopt_export env) =
  if broken (import_module env "modelopt.torch.export")
  then Raised OtherException else Returned tt.
Proof. apply optional_import_result. reflexivity. Qed.

Lemma megatron_core_result env success :
  result_of (megatron_core env success) =
  match from_import env "megatron.core" ["parallel_state"] with
  | Ok _ => Returned success
  | Raises LibImportError => Returned false
  | Raises LibOtherError => Raised OtherException
  end.
Proof.
  unfold megatron_core. unfold_monad.
  destruct (from_import _ _ _) as [[]|[]]; reflexivity.
Qed.

Lemma megatron_tensor_parallel_result env :
  result_of (megatron_tensor_parallel env) =
  if broken (from_import env "megatron.core.tensor_parallel" ["layers"])
  then Raised OtherException else Returned tt.
Proof. apply optional_import_result. reflexivity. Qed.

Lemma megatron_transformer_result env :
  result_of (megatron_transformer env) =
  if broken (from_import env "megatron.core.transformer" ["TransformerConfig"])
  then Raised OtherException else Returned tt.
Proof. apply optional_import_result. reflexivity. Qed.

Lemma megatron_models_result env :
  result_of (megatron_models env) =
  if broken (from_import env "megatron.core.models.gpt" ["GPTModel"])
  then Raised OtherException else Returned tt.
Proof. apply optional_import_result. reflexivity. Qed.

Lemma megatron_install_path_never_raises env :
  never_raises (megatron_install_path env).
Proof.
  unfold megatron_install_path. apply never_raises_try_bare.
  intros _. never_raises_tac.
Qed.

(** Replaces a sub-probe by its log and result, with the equation
    known for the result. *)
Ltac name_block blk H :=
  let l := fresh "l" in
  let r := fresh "r" in
  pose proof H as ?Hblk;
  destruct blk as [l r];
  unfold result_of in *; simpl snd in *; subst r.

Ltac name_returning_block blk H :=
  let l := fresh "l" in
  let r := fresh "r" in
  let u := fresh "u" in
  let Hr := fresh "Hr" in
  destruct H as [u Hr]; destruct u;
  destruct blk as [l r];
  unfold result_of in *; simpl snd in *; subst r.

(** ** The value each probe returns *)

Lemma check_transformer_engine_result env :
  result_of (check_transformer_engine env) = Returned (te_passes env).
Proof.
  unfold check_transformer_engine, te_passes. unfold_monad.
  name_block (te_recipes env) (te_recipes_result env).
  name_block (te_state_manager env) (te_state_manager_result env).
  name_block (te_layers env) (te_layers_result env).
  name_returning_block (te_forward_pass env) (te_forward_pass_never_raises env).
  unfold getattr.
  destruct (import_module env "transformer_engine") as [[]|[]];
    try reflexivity.
  destruct (has_attr env "transformer_engine" "__version__");
    try reflexivity.
  destruct (import_module env "transformer_engine.pytorch") as [[]|[]];
    try reflexivity.
  destruct (from_import env "transformer_engine.common.recipe" _) as [[]|[]];
    try reflexivity;
    (destruct (format_names env) as [[]|[]]; try reflexivity);
    (destruct (from_import env "transformer_engine.pytorch.fp8" _) as [[]|[]];
     try reflexivity);
    (destruct (from_import env "transformer_engine.pytorch" _) as [[]|[]];
     reflexivity).
Qed.

Lemma check_modelopt_result env :
  result_of (check_modelopt env) =
  Returned (negb (absent (import_module env "modelopt"))).
Proof.
  unfold check_modelopt. unfold_monad.
  name_returning_block (modelopt_quantization env)
    (modelopt_quantization_never_raises env).
  name_block (modelopt_export env) (modelopt_export_result env).
  unfold getattr.
  destruct (import_module env "modelopt") as [[]|[]]; try reflexivity.
  destruct (has_attr env "modelopt" "__version__"); try reflexivity.
  destruct (import_module env "modelopt.torch.export") as [[]|[]];
    reflexivity.
Qed.

Lemma check_megatron_lm_result env :
  result_of (check_megatron_lm env) = Returned (megatron_passes env).
Proof.
  unfold check_megatron_lm, megatron_passes. unfold_monad.
  name_block (megatron_core env true) (megatron_core_result env true).
  name_block (megatron_tensor_parallel env) (megatron_tensor_parallel_result env).
  name_block (megatron_transformer env) (megatron_transformer_result env).
  name_block (megatron_models env) (megatron_models_result env).
  name_returning_block (megatron_install_path env)
    (megatron_install_path_never_raises env).
  destruct (import_module env "megatron") as [[]|[]]; try reflexivity.
  destruct (from_import env "megatron.core" _) as [[]|[]]; try reflexivity;
    (destruct (from_import env "megatron.core.tensor_parallel" _) as [[]|[]];
     try reflexivity);
    (destruct (from_import env "megatron.core.transformer" _) as [[]|[]];
     try reflexivity);
    (destruct (from_import env "megatron.core.models.gpt" _) as [[]|[]];
     reflexivity).
Qed.

Lemma run_fp8_test_result env :
  result_of (run_fp8_test env) = Returned (fp8_passes env).
Proof.
  unfold run_fp8_test, fp8_passes, accelerator_present. unfold_monad.
  destruct (import_module env "torch") as [[]|[]]; try reflexivity.
  destruct (import_module env "transformer_engine.pytorch") as [[]|[]];
    try reflexivity.
  destruct (from_import env "transformer_engine.common.recipe" _) as [[]|[]];
    try reflexivity.
  destruct (cuda_is_available env) as [[]|[]]; try reflexivity.
  destruct (cuda_get_device_capability env) as [[major minor]|[]];
    try reflexivity.
  cbn -[Nat.ltb].
  destruct (major <? 9)%nat;
    (destruct (make_DelayedScaling env) as [[]|[]]; try reflexivity);
    (destruct (te_Linear_cuda env 512 512) as [[]|[]]; try reflexivity);
    (destruct (torch_randn env [8; 32; 512]) as [[]|[]]; try reflexivity);
    (destruct (fp8_autocast_forward env) as [[]|[]]; reflexivity).
Qed.

(** [check_additional_tools] has no outer guard: the first tool whose
    import raises something other than [ImportError] ends the probe
    with that exception. *)
Lemma check_additional_tools_result env :
  result_of (check_additional_tools env) =
  if existsb (fun t => broken (import_module env (fst t))) tools
  then Raised OtherException
  else Returned (existsb (fun t => succeeds (import_module env (fst t))) tools).
Proof.
  unfold check_additional_tools, tools. unfold_monad. simpl.
  destruct (import_module env "jupyter") as [[]|[]]; try reflexivity;
    (destruct (import_module env "tensorboard") as [[]|[]]; try reflexivity);
    (destruct (import_module env "wandb") as [[]|[]]; try reflexivity);
    (destruct (import_module env "datasets") as [[]|[]]; try reflexivity);
    (destruct (import_module env "transformers") as [[]|[]]; reflexivity).
Qed.

(** ** [main]: the six calls *)

Lemma calls_cons_call fn l : calls (Call fn :: l) = fn :: calls l.
Proof. reflexivity. Qed.

(** Replaces a probe by its log and result, keeping what is known of
    both. *)
Ltac name_probe probe Hres Hcalls :=
  let l := fresh "l" in
  let r := fresh "r" in
  let Hr := fresh "Hr" in
  let Hc := fresh "Hc" in
  pose proof Hres as Hr; pose proof Hcalls as Hc;
  destruct probe as [l r];
  unfold result_of, log_of in Hr, Hc; simpl fst in Hc; simpl snd in Hr;
  subst r.

Section MainChecks.
Variable env : Env.
Variable b1 : bool.
Hypothesis Hpytorch : result_of (check_pytorch env) = Returned b1.

Lemma main_checks_result :
  result_of (main_checks env) =
  if tool_import_broken env then Raised OtherException
  else Returned (results_of b1 (te_passes env)
                   (negb (absent (import_module env "modelopt")))
                   (megatron_passes env) (tools_available env)
                   (fp8_passes env)).
Proof.
  unfold main_checks, results_of. unfold_monad.
  name_probe (check_pytorch env) Hpytorch (check_pytorch_no_calls env).
  name_probe (check_transformer_engine env)
    (check_transformer_engine_result env)
    (check_transformer_engine_no_calls env).
  name_probe (check_modelopt env) (check_modelopt_result env)
    (check_modelopt_no_calls env).
  name_probe (check_megatron_lm env) (check_megatron_lm_result env)
    (check_megatron_lm_no_calls env).
  name_probe (check_additional_tools env) (check_additional_tools_result env)
    (check_additional_tools_no_calls env).
  name_probe (run_fp8_test env) (run_fp8_test_result env)
    (run_fp8_test_no_calls env).
  fold (tool_import_broken env) (tools_available env).
  destruct (tool_import_broken env); reflexivity.
Qed.

Lemma main_checks_calls :
  calls (log_of (main_checks env)) =
  ["check_pytorch"; "check_transformer_engine"; "check_modelopt";
   "check_megatron_lm"; "check_additional_tools"]
  ++ (if tool_import_broken env then [] else ["run_fp8_test"]).
Proof.
  unfold main_checks. unfold_monad.
  name_probe (check_pytorch env) Hpytorch (check_pytorch_no_calls env).
  name_probe (check_transformer_engine env)
    (check_transformer_engine_result env)
    (check_transformer_engine_no_calls env).
  name_probe (check_modelopt env) (check_modelopt_result env)
    (check_modelopt_no_calls env).
  name_probe (check_megatron_lm env) (check_megatron_lm_result env)
    (check_megatron_lm_no_calls env).
  name_probe (check_additional_tools env) (check_additional_tools_result env)
    (check_additional_tools_no_calls env).
  name_probe (run_fp8_test env) (run_fp8_test_result env)
    (run_fp8_test_no_calls env).
  fold (tool_import_broken env) (tools_available env).
  destruct (tool_import_broken env); simpl;
    repeat (rewrite ?calls_cons_call, ?calls_app);
    rewrite Hc, Hc0, Hc1, Hc2, Hc3, ?Hc4; reflexivity.
Qed.
End MainChecks.

(** ** [main]: the summary *)

Lemma results_of_lookup b1 b2 b3 b4 b5 b6 :
  let results := results_of b1 b2 b3 b4 b5 b6 in
  results !! "pytorch" = Some b1
  /\ results !! "transformer_engine" = Some b2
  /\ results !! "modelopt" = Some b3
  /\ results !! "megatron_lm" = Some b4
  /\ results !! "additional_tools" = Some b5
  /\ results !! "fp8_test" = Some b6.
Proof. unfold results_of. simpl. repeat split; by simplify_map_eq. Qed.

Lemma main_summary_result b1 b2 b3 b4 b5 b6 :
  result_of (main_summary (results_of b1 b2 b3 b4 b5 b6)) =
  if b1 && b2 && b4 then Returned tt else Raised (SystemExit 1).
Proof. destruct b1, b2, b3, b4, b5, b6; vm_compute; reflexivity. Qed.

Lemma main_summary_calls b1 b2 b3 b4 b5 b6 :
  calls (log_of (main_summary (results_of b1 b2 b3 b4 b5 b6))) = [].
Proof. destruct b1, b2, b3, b4, b5, b6; vm_compute; reflexivity. Qed.

Lemma result_of_main env :
  result_of (main env) =
  match result_of (main_checks env) with
  | Returned results => result_of (main_summary results)
  | Raised e => Raised e
  end.
Proof.
  unfold main. unfold_monad. rewrite !result_of_bind. reflexivity.
Qed.

Lemma calls_main env :
  calls (log_of (main env)) =
  calls (log_of (main_checks env))
  ++ match result_of (main_checks env) with
     | Returned results => calls (log_of (main_summary results))
     | Raised _ => []
     end.
Proof.
  unfold main. unfold_monad. rewrite !log_of_bind. simpl.
  rewrite calls_app. destruct (result_of (main_checks env)); reflexivity.
Qed.

(** The exit status of a run, in every environment: a tool whose
    import is broken ends the run with a traceback; otherwise the status
    is decided by the three required probes. *)
Lemma exit_status_main env b1 :
  result_of (check_pytorch env) = Returned b1 ->
  exit_status (main env) =
  if tool_import_broken env then 1%Z
  else if b1 && te_passes env && megatron_passes env then 0%Z else 1%Z.
Proof.
  intros H1. unfold exit_status.
  rewrite result_of_main, (main_checks_result env b1 H1).
  destruct (tool_import_broken env); [reflexivity|].
  rewrite main_summary_result.
  destruct (b1 && te_passes env && megatron_passes env); reflexivity.
Qed.

(** The probes a run invokes, in every environment. *)
Lemma calls_of_main env :
  calls (log_of (main env)) =
  ["check_pytorch"; "check_transformer_engine"; "check_modelopt";
   "check_megatron_lm"; "check_additional_tools"]
  ++ (if tool_import_broken env then [] else ["run_fp8_test"]).
Proof.
  destruct (check_pytorch_never_raises env) as [b1 H1].
  rewrite calls_main, (main_checks_calls env b1 H1),
    (main_checks_result env b1 H1).
  destruct (tool_import_broken env).
  - rewrite app_nil_r. reflexivity.
  - rewrite main_summary_calls, app_nil_r. reflexivity.
Qed.

(** ** Runs in the sample environments *)

Example ready_run :
  exit_status (main env_ready) = 0%Z
  /\ calls (log_of (main env_ready)) =
       ["check_pytorch"; "check_transformer_engine"; "check_modelopt";
        "check_megatron_lm"; "check_additional_tools"; "run_fp8_test"].
Proof. vm_compute. split; reflexivity. Qed.

(** Without an accelerator [check_pytorch] fails and the run ends with
    status 1 at the end of the summary, after all six probes. *)
Example no_gpu_run :
  result_of (check_pytorch env_no_gpu) = Returned false
  /\ result_of (main env_no_gpu) = Raised (SystemExit 1)
  /\ exit_status (main env_no_gpu) = 1%Z
  /\ length (calls (log_of (main env_no_gpu))) = 6%nat.
Proof. vm_compute. repeat split. Qed.

(** A degraded quantization toolkit does not change the verdict. *)
Example modelopt_degraded_run :
  check_modelopt env_modelopt_degraded =
    ([Header "3. ModelOpt"; Okay "ModelOpt {modelopt.__version__}";
      Warn "Quantization module: {e}";
      Warn "ModelOpt has issues but is installed: {e}"],
     Returned true)
  /\ exit_status (main env_modelopt_degraded) = 0%Z.
Proof. vm_compute. split; reflexivity. Qed.

(** With an accelerator the forward pass is reported. *)
Example forward_pass_reported :
  Exists (fun ev => about_forward_pass ev = true)
    (log_of (check_transformer_engine env_ready))
  /\ Exists (fun ev => about_forward_pass ev = true)
       (log_of (check_transformer_engine env_te_degraded)).
Proof.
  split; apply Exists_exists.
  - exists (Okay te_forward_ok). split; [|reflexivity].
    vm_compute. repeat first [left | right].
  - exists (Warn te_forward_warn). split; [|reflexivity].
    vm_compute. repeat first [left | right].
Qed.

(** * The claims *)

(** ** Exit status *)

(** C1. The exit status is meant to be 0 exactly when the three
    required probes returned true, whatever the optional probes do.  In
    [env_tool_crash] the three required probes return true, and yet the
    run ends with status 1: the exception [check_additional_tools] lets
    through reaches the top level before the summary is computed.
    ([exit_status_main] gives the status in every environment: on each
    run in which [check_additional_tools] returns, the status is 0
    exactly when the three required probes returned true.) *)
Theorem C1_exit_status_after_tool_crash :
  result_of (check_pytorch env_tool_crash) = Returned true
  /\ result_of (check_transformer_engine env_tool_crash) = Returned true
  /\ result_of (check_megatron_lm env_tool_crash) = Returned true
  /\ result_of (main env_tool_crash) = Raised OtherException
  /\ exit_status (main env_tool_crash) = 1%Z.
Proof. vm_compute. repeat split. Qed.

(** ** The probe boundary *)

(** The five probes whose body sits under [except Exception] return a
    boolean in every environment. *)
Lemma guarded_probes_never_raise env :
  never_raises (check_pytorch env)
  /\ never_raises (check_transformer_engine env)
  /\ never_raises (check_modelopt env)
  /\ never_raises (check_megatron_lm env)
  /\ never_raises (run_fp8_test env).
Proof.
  repeat split;
    auto using check_pytorch_never_raises,
      check_transformer_engine_never_raises, check_modelopt_never_raises,
      check_megatron_lm_never_raises, run_fp8_test_never_raises.
Qed.

(** [check_additional_tools] returns exactly when no tool import raises
    something other than [ImportError]. *)
Lemma check_additional_tools_never_raises_iff env :
  never_raises (check_additional_tools env) <-> tool_import_broken env = false.
Proof.
  unfold never_raises. rewrite check_additional_tools_result.
  fold (tool_import_broken env). destruct (tool_import_broken env); split.
  - intros [b Hb]. discriminate.
  - discriminate.
  - reflexivity.
  - eauto.
Qed.

(** C2. Every probe is meant to return a boolean whatever the
    libraries do.  [check_additional_tools] guards each import with
    [except ImportError] only and has no outer guard: in
    [env_tool_crash] it prints two successes and then raises, so it
    returns nothing. *)
Theorem C2_check_additional_tools_raises :
  check_additional_tools env_tool_crash =
    ([Header "5. Additional Tools"; Okay "Jupyter"; Okay "TensorBoard"],
     Raised OtherException)
  /\ ~ never_raises (check_additional_tools env_tool_crash).
Proof.
  split; [vm_compute; reflexivity|].
  rewrite check_additional_tools_never_raises_iff. vm_compute. discriminate.
Qed.

(** ** The mixed-precision extension probe *)

(** C3 fails as stated: in [env_te_no_pytorch] the top-level import
    succeeds and the probe returns false, with an error message and no
    warning. *)
Lemma C3_counterexample :
  import_module env_te_no_pytorch "transformer_engine" = Ok tt
  /\ check_transformer_engine env_te_no_pytorch =
       ([Header "2. Transformer Engine";
         Okay "Transformer Engine {transformer_engine.__version__}";
         Fail "Transformer Engine: {e}"],
        Returned false).
Proof. vm_compute. split; reflexivity. Qed.

(** The three sub-probes guarded by [except ImportError], when what
    they import raises nothing but [ImportError]: each prints its
    success line or its warning, and returns. *)
Lemma te_recipes_run env :
  broken (from_import env "transformer_engine.common.recipe"
            ["DelayedScaling"; "Format"]) = false ->
  broken (format_names env) = false ->
  te_recipes env = (te_recipes_lines env, Returned tt).
Proof.
  intros H1 H2. unfold te_recipes, te_recipes_lines. unfold_monad.
  destruct (from_import _ _ _) as [[]|[]]; try discriminate H1;
    try reflexivity.
  destruct (format_names env) as [[]|[]]; try discriminate H2; reflexivity.
Qed.

Lemma te_state_manager_run env :
  broken (from_import env "transformer_engine.pytorch.fp8"
            ["FP8GlobalStateManager"]) = false ->
  te_state_manager env = (te_state_manager_lines env, Returned tt).
Proof.
  intros H. unfold te_state_manager, te_state_manager_lines. unfold_monad.
  destruct (from_import _ _ _) as [[]|[]]; try discriminate H; reflexivity.
Qed.

Lemma te_layers_run env :
  broken (from_import env "transformer_engine.pytorch"
            ["Linear"; "LayerNorm"; "TransformerLayer"]) = false ->
  te_layers env = (te_layers_lines env, Returned tt).
Proof.
  intros H. unfold te_layers, te_layers_lines. unfold_monad.
  destruct (from_import _ _ _) as [[]|[]]; try discriminate H; reflexivity.
Qed.

(** The forward-pass sub-probe, in every environment: whatever raises
    inside it ends in its warning, and it returns. *)
Lemma te_forward_pass_run env :
  te_forward_pass env = (te_forward_lines env, Returned tt).
Proof.
  unfold te_forward_pass, te_forward_lines. unfold_monad.
  destruct (import_module env "torch") as [[]|[]]; try reflexivity;
    (destruct (cuda_is_available env) as [[]|[]]; try reflexivity);
    (destruct (te_Linear_cuda env 256 256) as [[]|[]]; try reflexivity);
    (destruct (torch_randn env [8; 256]) as [[]|[]]; try reflexivity);
    (destruct (te_layer_forward env) as [[]|[]]; reflexivity).
Qed.

Lemma te_lines_no_error env :
  Forall (fun ev => is_fail ev = false)
    (te_recipes_lines env ++ te_state_manager_lines env
     ++ te_layers_lines env ++ te_forward_lines env).
Proof.
  unfold te_recipes_lines, te_state_manager_lines, te_layers_lines,
    te_forward_lines.
  rewrite !Forall_app. repeat split;
    repeat match goal with
           | |- context [match ?o with Ok _ => _ | Raises _ => _ end] =>
               destruct o as [[]|[]]
           | |- context [if ?b then _ else _] => destruct b
           end;
    repeat constructor.
Qed.

(** C3, amended.  Whenever the top-level import, the read of its
    version and the import of [transformer_engine.pytorch] succeed and
    none of the recipe, state manager and layer sub-probes raises
    anything but [ImportError], [check_transformer_engine] returns true
    and prints, after its header and its two success lines, what each
    of the four sub-probes prints, in order: for a sub-probe that fails
    this is its warning (after the success line of the recipe import
    when only the listing of the formats failed), and nothing for a
    forward pass skipped for want of an accelerator.  No error line is
    printed. *)
Theorem C3_check_transformer_engine_soft_failures env :
  import_module env "transformer_engine" = Ok tt ->
  has_attr env "transformer_engine" "__version__" = true ->
  import_module env "transformer_engine.pytorch" = Ok tt ->
  broken (from_import env "transformer_engine.common.recipe"
            ["DelayedScaling"; "Format"]) = false ->
  broken (format_names env) = false ->
  broken (from_import env "transformer_engine.pytorch.fp8"
            ["FP8GlobalStateManager"]) = false ->
  broken (from_import env "transformer_engine.pytorch"
            ["Linear"; "LayerNorm"; "TransformerLayer"]) = false ->
  check_transformer_engine env =
    ([Header "2. Transformer Engine";
      Okay "Transformer Engine {transformer_engine.__version__}";
      Okay "PyTorch integration available"]
     ++ te_recipes_lines env ++ te_state_manager_lines env
     ++ te_layers_lines env ++ te_forward_lines env,
     Returned true)
  /\ Forall (fun ev => is_fail ev = false)
       (log_of (check_transformer_engine env)).
Proof.
  intros H1 H2 H3 H4 H5 H6 H7.
  assert (Hrun : check_transformer_engine env =
            ([Header "2. Transformer Engine";
              Okay "Transformer Engine {transformer_engine.__version__}";
              Okay "PyTorch integration available"]
             ++ te_recipes_lines env ++ te_state_manager_lines env
             ++ te_layers_lines env ++ te_forward_lines env,
             Returned true)).
  { unfold check_transformer_engine, getattr. unfold_monad.
    rewrite (te_recipes_run env H4 H5), (te_state_manager_run env H6),
      (te_layers_run env H7), (te_forward_pass_run env), H1, H2, H3.
    cbn [lift ret bind emit try_ app]. rewrite !app_nil_r. reflexivity. }
  split; [exact Hrun|]. rewrite Hrun. unfold log_of. cbn [fst].
  repeat (apply Forall_cons; split; [reflexivity|]).
  apply te_lines_no_error.
Qed.

Lemma C3_witness :
  check_transformer_engine env_te_degraded =
    ([Header "2. Transformer Engine";
      Okay "Transformer Engine {transformer_engine.__version__}";
      Okay "PyTorch integration available";
      Warn "FP8 recipes: {e}";
      Warn "FP8GlobalStateManager not available in this version";
      Warn "Some TE layers not available: {e}";
      Warn te_forward_warn],
     Returned true)
  /\ Forall (fun ev => is_fail ev = false)
       (log_of (check_transformer_engine env_te_degraded)).
Proof.
  apply (C3_check_transformer_engine_soft_failures env_te_degraded);
    reflexivity.
Defined.

(** ** The quantization toolkit probe *)

(** C4. Once [import modelopt] has succeeded, [check_modelopt] returns
    true, whatever the quantization and export sub-probes do. *)
Theorem C4_check_modelopt_installed env :
  import_module env "modelopt" = Ok tt ->
  result_of (check_modelopt env) = Returned true.
Proof.
  intros H. rewrite check_modelopt_result, H. reflexivity.
Qed.

Lemma C4_witness :
  result_of (check_modelopt env_modelopt_degraded) = Returned true.
Proof.
  apply (C4_check_modelopt_installed env_modelopt_degraded). reflexivity.
Defined.

(** C10. The value [check_modelopt] returns is decided by the outcome
    of [import modelopt] alone: false when it raises [ImportError],
    true when it raises any other exception, and true when it
    succeeds. *)
Theorem C10_check_modelopt_by_import_exception env :
  result_of (check_modelopt env) =
  match import_module env "modelopt" with
  | Raises LibImportError => Returned false
  | Raises LibOtherError => Returned true
  | Ok _ => Returned true
  end.
Proof.
  rewrite check_modelopt_result.
  destruct (import_module env "modelopt") as [[]|[]]; reflexivity.
Qed.

(** ** The distributed-training framework probe *)

(** C5 fails as stated: in [env_megatron_tp_broken] both the top-level
    import and the import of the parallel state succeed, and the probe
    returns false, because the tensor parallel sub-probe raised an
    exception its [except ImportError] clause does not take. *)
Lemma C5_counterexample :
  import_module env_megatron_tp_broken "megatron" = Ok tt
  /\ from_import env_megatron_tp_broken "megatron.core" ["parallel_state"]
     = Ok tt
  /\ check_megatron_lm env_megatron_tp_broken =
       ([Header "4. Megatron-LM"; Okay "Megatron package importable";
         Okay "Megatron Core parallel_state available";
         Fail "Megatron-LM: {e}"],
        Returned false).
Proof. vm_compute. repeat split. Qed.

(** C5, amended.  As long as none of the tensor parallel, transformer
    configuration and model sub-probes raises anything but
    [ImportError], [check_megatron_lm] returns true exactly when the
    top-level import and the import of the parallel state both
    succeed: the value is a function of these two imports, so an
    [ImportError] in the three advisory sub-probes and any failure of
    the install path sub-probe do not change it. *)
Theorem C5_check_megatron_lm_required_imports env :
  broken (from_import env "megatron.core.tensor_parallel" ["layers"]) = false ->
  broken (from_import env "megatron.core.transformer" ["TransformerConfig"])
  = false ->
  broken (from_import env "megatron.core.models.gpt" ["GPTModel"]) = false ->
  result_of (check_megatron_lm env) =
    Returned (succeeds (import_module env "megatron")
              && succeeds (from_import env "megatron.core" ["parallel_state"]))
  /\ (result_of (check_megatron_lm env) = Returned true <->
      import_module env "megatron" = Ok tt
      /\ from_import env "megatron.core" ["parallel_state"] = Ok tt).
Proof.
  intros H1 H2 H3.
  rewrite check_megatron_lm_result. unfold megatron_passes.
  rewrite H1, H2, H3. cbn [negb]. rewrite !andb_true_r.
  split; [reflexivity|].
  destruct (import_module env "megatron") as [[]|e1],
    (from_import env "megatron.core" ["parallel_state"]) as [[]|e2];
    simpl; split; try discriminate; try tauto;
    intros [? ?]; discriminate.
Qed.

Lemma C5_witness :
  result_of (check_megatron_lm env_megatron_advisory_absent) = Returned true.
Proof.
  apply (C5_check_megatron_lm_required_imports env_megatron_advisory_absent);
    first [reflexivity | split; reflexivity].
Defined.

(** ** The functional precision test probe *)

(** C6. When [torch.cuda.is_available()] is false, [run_fp8_test]
    returns false and raises nothing.  With the extension and its
    recipes importable this is the skip branch and its warning; with
    the extension not importable the exception of the import is caught
    and turned into a warning. *)
Theorem C6_run_fp8_test_without_accelerator env :
  cuda_is_available env = Ok false ->
  result_of (run_fp8_test env) = Returned false
  /\ (import_module env "torch" = Ok tt ->
      import_module env "transformer_engine.pytorch" = Ok tt ->
      from_import env "transformer_engine.common.recipe"
        ["DelayedScaling"; "Format"] = Ok tt ->
      run_fp8_test env = (fp8_skip_log, Returned false))
  /\ (import_module env "torch" = Ok tt ->
      forall e, import_module env "transformer_engine.pytorch" = Raises e ->
      run_fp8_test env = (fp8_caught_log, Returned false)).
Proof.
  intros Hgpu. split; [|split].
  - rewrite run_fp8_test_result. unfold fp8_passes, accelerator_present.
    rewrite Hgpu, andb_false_r. reflexivity.
  - intros H1 H2 H3. unfold run_fp8_test. unfold_monad.
    rewrite H1, H2, H3, Hgpu. reflexivity.
  - intros H1 e H2. unfold run_fp8_test. unfold_monad.
    rewrite H1, H2. destruct e; reflexivity.
Qed.

Lemma C6_witness :
  run_fp8_test env_no_gpu = (fp8_skip_log, Returned false)
  /\ run_fp8_test env_no_gpu_no_te = (fp8_caught_log, Returned false).
Proof.
  split.
  - apply (C6_run_fp8_test_without_accelerator env_no_gpu); reflexivity.
  - apply (C6_run_fp8_test_without_accelerator env_no_gpu_no_te)
      with (e := LibImportError); reflexivity.
Defined.

(** ** Order of the probes *)

(** C7. [main] is meant to invoke the six probes whatever each of
    them does.  In [env_tool_crash] the run invokes the first five and
    stops: [run_fp8_test] is never invoked, because
    [check_additional_tools] raised.  ([calls_of_main] gives the probes
    invoked in every environment: the first five always, in order, and
    the sixth exactly when [check_additional_tools] returns.) *)
Theorem C7_run_fp8_test_not_invoked_after_tool_crash :
  calls (log_of (main env_tool_crash)) =
    ["check_pytorch"; "check_transformer_engine"; "check_modelopt";
     "check_megatron_lm"; "check_additional_tools"]
  /\ "run_fp8_test" ∉ calls (log_of (main env_tool_crash)).
Proof.
  assert (H : calls (log_of (main env_tool_crash)) =
              ["check_pytorch"; "check_transformer_engine"; "check_modelopt";
               "check_megatron_lm"; "check_additional_tools"])
    by (vm_compute; reflexivity).
  split; [exact H|]. rewrite H. intros Hin.
  repeat (apply elem_of_cons in Hin as [Hin|Hin]; [discriminate|]).
  by apply elem_of_nil in Hin.
Qed.

(** ** The results dictionary *)

(** C8. Once the six probes have returned, every name of [required]
    and of [optional] is a key of [results]: each lookup of the summary
    yields a boolean, and the summary raises no [KeyError]. *)
Theorem C8_summary_keys_defined env (results : gmap string bool) :
  result_of (main_checks env) = Returned results ->
  (forall k, k ∈ required ++ optional ->
     exists b, results !! k = Some b /\ getitem results k = ret b)
  /\ (forall k, result_of (main_summary results) <> Raised (KeyError k)).
Proof.
  intros H.
  destruct (check_pytorch_never_raises env) as [b1 H1].
  rewrite (main_checks_result env b1 H1) in H.
  destruct (tool_import_broken env); [discriminate|].
  injection H as <-. split.
  - intros k Hk. unfold getitem.
    pose proof (results_of_lookup b1 (te_passes env)
                  (negb (absent (import_module env "modelopt")))
                  (megatron_passes env) (tools_available env)
                  (fp8_passes env)) as (L1 & L2 & L3 & L4 & L5 & L6).
    unfold required, optional in Hk. simpl in Hk.
    repeat (apply elem_of_cons in Hk as [->|Hk]);
      [rewrite L1 | rewrite L2 | rewrite L4 | rewrite L3 | rewrite L5
      | rewrite L6 | by apply elem_of_nil in Hk]; eauto.
  - intros k. rewrite main_summary_result.
    destruct (b1 && te_passes env && megatron_passes env); discriminate.
Qed.

Lemma C8_witness :
  (forall k, k ∈ required ++ optional ->
     exists b, results_of true true true true true true !! k = Some b
               /\ getitem (results_of true true true true true true) k = ret b)
  /\ (forall k, result_of (main_summary
                             (results_of true true true true true true))
                <> Raised (KeyError k)).
Proof.
  apply (C8_summary_keys_defined env_ready). vm_compute. reflexivity.
Defined.

(** ** The forward pass without an accelerator *)

Lemma te_forward_pass_skipped env :
  import_module env "torch" = Ok tt ->
  cuda_is_available env = Ok false ->
  te_forward_pass env = ret tt.
Proof.
  intros H1 H2. unfold te_forward_pass. unfold_monad.
  rewrite H1, H2. reflexivity.
Qed.

(** C9. When [torch] imports and reports no accelerator, the
    forward-pass sub-probe of [check_transformer_engine] does nothing
    and prints nothing, no message of the probe is about the forward
    pass, and the value the probe returns is the one the other steps
    decide: it is true when they pass. *)
Theorem C9_forward_pass_silently_skipped env :
  import_module env "torch" = Ok tt ->
  cuda_is_available env = Ok false ->
  te_forward_pass env = ([], Returned tt)
  /\ Forall (fun ev => about_forward_pass ev = false)
       (log_of (check_transformer_engine env))
  /\ result_of (check_transformer_engine env) = Returned (te_passes env).
Proof.
  intros H1 H2. split; [|split].
  - exact (te_forward_pass_skipped env H1 H2).
  - change (log_all (fun ev => about_forward_pass ev = false)
              (check_transformer_engine env)).
    unfold check_transformer_engine.
    rewrite (te_forward_pass_skipped env H1 H2).
    unfold te_recipes, te_state_manager, te_layers.
    log_all_tac ltac:(reflexivity).
  - apply check_transformer_engine_result.
Qed.

Lemma C9_witness :
  te_forward_pass env_no_gpu = ([], Returned tt)
  /\ Forall (fun ev => about_forward_pass ev = false)
       (log_of (check_transformer_engine env_no_gpu))
  /\ result_of (check_transformer_engine env_no_gpu) = Returned true.
Proof.
  apply (C9_forward_pass_silently_skipped env_no_gpu); reflexivity.
Defined.

(** * Further properties *)

(** ** [check_pytorch] *)

Lemma enumerate_devices_all_ok env xs :
  forallb (device_ok env) xs = true ->
  enumerate_devices env xs = (repeat gpu_line (length xs), Returned tt).
Proof.
  unfold enumerate_devices.
  induction xs as [|i xs IH]; intros H; [reflexivity|].
  simpl in H. apply andb_true_iff in H as [Hi Hxs].
  unfold device_ok in Hi. apply andb_true_iff in Hi as [Hn Hp].
  specialize (IH Hxs). simpl for_each. unfold_monad.
  destruct (cuda_get_device_name env i) as [[]|]; [|discriminate].
  destruct (cuda_get_device_properties env i) as [[]|]; [|discriminate].
  cbn [lift ret bind emit app]. rewrite IH. reflexivity.
Qed.

(** The loop stops at the first device that cannot be described, with
    one line printed for each device before it. *)
Lemma enumerate_devices_some_fails env xs :
  forallb (device_ok env) xs = false ->
  exists k e, (k < length xs)%nat /\
    enumerate_devices env xs = (repeat gpu_line k, Raised (exn_of_lib e)).
Proof.
  unfold enumerate_devices.
  induction xs as [|i xs IH]; intros H; [discriminate|].
  simpl in H. simpl for_each. unfold_monad. unfold device_ok in H.
  destruct (cuda_get_device_name env i) as [[]|e1].
  2:{ exists 0%nat, e1. split; [simpl; lia|reflexivity]. }
  destruct (cuda_get_device_properties env i) as [[]|e2].
  2:{ exists 0%nat, e2. split; [simpl; lia|reflexivity]. }
  simpl in H. destruct (IH H) as (k & e & Hk & IH').
  exists (S k), e. split; [simpl; lia|].
  cbn [lift ret bind emit app]. rewrite IH'. reflexivity.
Qed.

(** X1. [check_pytorch] returns true exactly when [torch] imports, its
    version can be read, an accelerator is reported, the CUDA version
    can be read, every announced device can be described, and the
    tensor test succeeds; in every other case it returns false. *)
Theorem X1_check_pytorch_value env :
  result_of (check_pytorch env) = Returned (pytorch_passes env).
Proof.
  unfold check_pytorch, pytorch_passes, accelerator_present, devices_ok.
  unfold_monad. unfold getattr.
  destruct (import_module env "torch") as [[]|[]]; try reflexivity.
  destruct (has_attr env "torch" "__version__"); try reflexivity.
  destruct (cuda_is_available env) as [[]|[]]; try reflexivity.
  destruct (has_attr env "torch.version" "cuda"); try reflexivity.
  destruct (cuda_device_count env) as [n|[]]; try reflexivity.
  cbv beta iota delta [lift ret raise emit bind].
  change (for_each (seq 0 n) tt _) with (enumerate_devices env (seq 0 n)).
  destruct (forallb (device_ok env) (seq 0 n)) eqn:Hdev.
  - rewrite (enumerate_devices_all_ok env _ Hdev).
    destruct (torch_randn env [100; 100]) as [[]|[]]; try reflexivity.
    destruct (torch_matmul env) as [[]|[]]; reflexivity.
  - destruct (enumerate_devices_some_fails env _ Hdev) as (k & e & _ & ->).
    destruct e; reflexivity.
Qed.

(** X2. When [import torch] raises, [check_pytorch] prints its header
    and one error line and returns false, in every such environment:
    what it prints and returns does not depend on anything else the
    environment would answer. *)
Theorem X2_check_pytorch_import_fails env e :
  import_module env "torch" = Raises e ->
  check_pytorch env =
    ([Header "1. PyTorch"; Fail "PyTorch: {e}"], Returned false).
Proof.
  intros H. unfold check_pytorch. unfold_monad. rewrite H.
  destruct e; reflexivity.
Qed.

Lemma X2_witness :
  check_pytorch env_no_torch =
    ([Header "1. PyTorch"; Fail "PyTorch: {e}"], Returned false).
Proof.
  apply (X2_check_pytorch_import_fails env_no_torch LibImportError).
  reflexivity.
Defined.

(** X3. When [torch] imports with a readable version and reports no
    accelerator, [check_pytorch] prints the version and the error line
    [CUDA not available] and returns false, in every such environment:
    no count line and no device line is printed, whatever the device
    queries would answer. *)
Theorem X3_check_pytorch_no_accelerator env :
  import_module env "torch" = Ok tt ->
  has_attr env "torch" "__version__" = true ->
  cuda_is_available env = Ok false ->
  check_pytorch env =
    ([Header "1. PyTorch"; Okay "PyTorch {torch.__version__}";
      Fail "CUDA not available"], Returned false).
Proof.
  intros H1 H2 H3. unfold check_pytorch, getattr. unfold_monad.
  rewrite H1, H2, H3. reflexivity.
Qed.

Lemma X3_witness :
  check_pytorch env_no_gpu =
    ([Header "1. PyTorch"; Okay "PyTorch {torch.__version__}";
      Fail "CUDA not available"], Returned false).
Proof.
  apply (X3_check_pytorch_no_accelerator env_no_gpu); reflexivity.
Defined.

(** X4. When [check_pytorch] passes with [n] devices announced, it
    prints the version, the CUDA version, the count, then exactly [n]
    device lines, then the line of the tensor test. *)
Theorem X4_check_pytorch_device_lines env n :
  cuda_device_count env = Ok n ->
  pytorch_passes env = true ->
  check_pytorch env =
    ([Header "1. PyTorch"; Okay "PyTorch {torch.__version__}";
      Okay "CUDA available: {torch.version.cuda}";
      Okay "GPU count: {gpu_count}"]
     ++ repeat gpu_line n ++ [Okay "CUDA tensor operations working"],
     Returned true).
Proof.
  intros Hn. unfold pytorch_passes, accelerator_present, devices_ok.
  rewrite Hn. rewrite !andb_true_iff.
  intros [[[[[[H1 H2] H3] H4] H5] H6] H7].
  unfold check_pytorch, getattr. unfold_monad.
  destruct (import_module env "torch") as [[]|]; [|discriminate].
  rewrite H2, H4, Hn.
  destruct (cuda_is_available env) as [[]|]; try discriminate.
  destruct (torch_randn env [100; 100]) as [[]|]; [|discriminate].
  destruct (torch_matmul env) as [[]|]; [|discriminate].
  cbv beta iota delta [lift ret raise emit bind].
  change (for_each (seq 0 n) tt _) with (enumerate_devices env (seq 0 n)).
  rewrite (enumerate_devices_all_ok env _ H5), length_seq.
  cbn [try_ app]. rewrite ?app_nil_r. reflexivity.
Qed.

Lemma X4_witness :
  check_pytorch (env_devices 3 9 0) =
    ([Header "1. PyTorch"; Okay "PyTorch {torch.__version__}";
      Okay "CUDA available: {torch.version.cuda}";
      Okay "GPU count: {gpu_count}"; gpu_line; gpu_line; gpu_line;
      Okay "CUDA tensor operations working"],
     Returned true).
Proof.
  apply (X4_check_pytorch_device_lines (env_devices 3 9 0) 3); reflexivity.
Defined.

(** ** [check_additional_tools] *)

(** The loop of lines 221-227 over any list of tools, from any count. *)
Lemma tools_loop env (ts : list (string * string)) (acc : nat) :
  for_each ts acc
    (fun available '(module, name) =>
       try_
         (lift (import_module env module);;
          ok name;;
          mret (available + 1)%nat)
         [(ExcImportError,
           fun _ => info (name +:+ " not installed (optional)");;
                    mret available)])
  = (map (tool_line env) (tools_before_crash env ts),
     if existsb (fun t => broken (import_module env (fst t))) ts
     then Raised OtherException
     else Returned
            (acc + length (filter (fun t =>
                                     succeeds (import_module env (fst t)) = true)
                             ts))%nat).
Proof.
  revert acc. induction ts as [|[module name] ts IH]; intros acc.
  - simpl. rewrite Nat.add_0_r. reflexivity.
  - simpl for_each. unfold_monad. unfold tool_line at 1.
    cbn [tools_before_crash existsb fst snd map].
    rewrite filter_cons. cbn [fst].
    destruct (import_module env module) as [[]|[]] eqn:E.
    + cbn -[for_each tool_line]. rewrite IH.
      unfold tool_line at 1. cbn [fst snd]. rewrite E. cbn.
      destruct (existsb _ ts); [reflexivity|].
      rewrite decide_True by reflexivity. cbn. do 2 f_equal. lia.
    + cbn -[for_each tool_line]. rewrite IH.
      unfold tool_line at 1. cbn [fst snd]. rewrite E. cbn.
      destruct (existsb _ ts); [reflexivity|].
      rewrite decide_False by discriminate. reflexivity.
    + reflexivity.
Qed.

Lemma some_tool_counted env (ts : list (string * string)) :
  (0 <? 0 + length (filter (fun t =>
                              succeeds (import_module env (fst t)) = true) ts))%nat
  = existsb (fun t => succeeds (import_module env (fst t))) ts.
Proof.
  induction ts as [|t ts IH]; [reflexivity|].
  rewrite filter_cons. simpl existsb.
  destruct (succeeds (import_module env (fst t))).
  - rewrite decide_True by reflexivity. reflexivity.
  - rewrite decide_False by discriminate. exact IH.
Qed.

(** X5. [check_additional_tools] prints its header and then one line
    per tool, in the order of the dictionary: a success line for a tool
    that imports, an information line for a tool that is absent.  It
    stops at the first tool whose import raises something other than
    [ImportError], printing nothing for that tool nor for the tools
    after it, and raises; otherwise it returns whether at least one
    tool imported. *)
Theorem X5_check_additional_tools_run env :
  check_additional_tools env =
    (Header "5. Additional Tools"
       :: map (tool_line env) (tools_before_crash env tools),
     if tool_import_broken env then Raised OtherException
     else Returned (tools_available env)).
Proof.
  unfold check_additional_tools, tool_import_broken, tools_available.
  rewrite tools_loop. unfold_monad. cbn [header emit bind].
  destruct (existsb _ tools); [reflexivity|].
  cbn [ret app]. rewrite some_tool_counted, app_nil_r. reflexivity.
Qed.

(** X6. [check_additional_tools] returns false exactly when the import
    of each of the five tools raises [ImportError]. *)
Theorem X6_check_additional_tools_false_iff env :
  result_of (check_additional_tools env) = Returned false <->
  forall t, t ∈ tools -> import_module env (fst t) = Raises LibImportError.
Proof.
  rewrite check_additional_tools_result.
  induction tools as [|t ts IH].
  - simpl. split; [intros _ t Ht; by apply elem_of_nil in Ht | reflexivity].
  - simpl existsb. split.
    + intros H t' Ht'.
      destruct (import_module env (fst t)) as [[]|[]] eqn:E; simpl in H;
        try discriminate H.
      * destruct (existsb _ ts); discriminate H.
      * apply elem_of_cons in Ht' as [->|Ht']; [exact E|].
        apply IH; assumption.
    + intros H. rewrite (H t) by (apply elem_of_cons; auto). simpl.
      apply IH. intros t' Ht'. apply H. apply elem_of_cons; auto.
Qed.

(** ** Exceptions and error lines *)

(** X7. The five probes whose body sits under an outer
    [except Exception] return a boolean in every environment, whatever
    the libraries raise. *)
Theorem X7_guarded_probes_return env :
  exists b1 b2 b3 b4 b6,
    result_of (check_pytorch env) = Returned b1
    /\ result_of (check_transformer_engine env) = Returned b2
    /\ result_of (check_modelopt env) = Returned b3
    /\ result_of (check_megatron_lm env) = Returned b4
    /\ result_of (run_fp8_test env) = Returned b6.
Proof.
  destruct (check_pytorch_never_raises env) as [b1 H1].
  destruct (check_transformer_engine_never_raises env) as [b2 H2].
  destruct (check_modelopt_never_raises env) as [b3 H3].
  destruct (check_megatron_lm_never_raises env) as [b4 H4].
  destruct (run_fp8_test_never_raises env) as [b6 H6].
  exists b1, b2, b3, b4, b6. auto.
Qed.

Lemma fail_means_false_ret b : fail_means_false (ret b).
Proof. left. constructor. Qed.

Lemma fail_means_false_bind {A} (m : M A) (k : A -> M bool) :
  log_all not_fail m ->
  (forall a, result_of m = Returned a -> fail_means_false (k a)) ->
  fail_means_false (bind m k).
Proof.
  intros Hm Hk. unfold fail_means_false, log_all.
  rewrite log_of_bind, result_of_bind.
  destruct (result_of m) as [a|e].
  - destruct (Hk a eq_refl) as [Hl|Hr]; [left|right; exact Hr].
    apply Forall_app; split; assumption.
  - left. rewrite app_nil_r. exact Hm.
Qed.

Lemma fail_means_false_try (body : M bool) hs :
  fail_means_false body ->
  (forall e h, result_of body = Raised e -> select_handler e hs = Some h ->
               result_of (h e) = Returned false \/ log_all not_fail (h e)) ->
  fail_means_false (try_ body hs).
Proof.
  intros Hb Hh. unfold fail_means_false, log_all.
  rewrite log_of_try, result_of_try.
  destruct (result_of body) as [a|e] eqn:Eb.
  - rewrite app_nil_r. destruct Hb as [Hl|Hr]; [left; exact Hl|right].
    rewrite Eb in Hr. exact Hr.
  - destruct Hb as [Hl|Hr]; [|rewrite Eb in Hr; discriminate].
    destruct (select_handler e hs) as [h|] eqn:Eh.
    + destruct (Hh e h eq_refl Eh) as [Hf|Hn]; [right; exact Hf|left].
      apply Forall_app; split; assumption.
    + left. rewrite app_nil_r. exact Hl.
Qed.

Ltac fail_means_false_tac :=
  unfold_monad;
  repeat first
    [ apply fail_means_false_ret
    | solve [right; reflexivity]
    | apply fail_means_false_bind;
      [ solve [log_all_tac ltac:(reflexivity)]
      | let a := fresh "a" in intros a _ ]
    | apply fail_means_false_try;
      [|let H := fresh "H" in
        intros ? ? _ H; pick_handler H;
        first [ left; reflexivity | right; log_all_tac ltac:(reflexivity) ]]
    | match goal with
      | |- fail_means_false (if ?b then _ else _) => destruct b
      end ].

Lemma probes_fail_means_false env :
  fail_means_false (check_pytorch env)
  /\ fail_means_false (check_transformer_engine env)
  /\ fail_means_false (check_modelopt env)
  /\ fail_means_false (check_megatron_lm env)
  /\ fail_means_false (check_additional_tools env)
  /\ fail_means_false (run_fp8_test env).
Proof.
  repeat split.
  - unfold check_pytorch. fail_means_false_tac.
  - unfold check_transformer_engine, te_recipes, te_state_manager, te_layers,
      te_forward_pass. fail_means_false_tac.
  - unfold check_modelopt, modelopt_quantization, modelopt_export.
    fail_means_false_tac.
  - unfold check_megatron_lm, megatron_core, megatron_tensor_parallel,
      megatron_transformer, megatron_models, megatron_install_path.
    fail_means_false_tac.
  - left. unfold check_additional_tools. log_all_tac ltac:(reflexivity).
  - unfold run_fp8_test. fail_means_false_tac.
Qed.

(** X8. Whichever of the six checks returns true has printed no error
    line. *)
Theorem X8_passing_check_prints_no_error env key probe :
  (key, probe) ∈ checks ->
  result_of (probe env) = Returned true ->
  Forall (fun ev => is_fail ev = false) (log_of (probe env)).
Proof.
  intros Hin Ht.
  destruct (probes_fail_means_false env) as (F1 & F2 & F3 & F4 & F5 & F6).
  assert (Hf : fail_means_false (probe env)).
  { unfold checks in Hin.
    repeat (apply elem_of_cons in Hin as [Hin|Hin];
            [injection Hin as -> ->; assumption|]).
    by apply elem_of_nil in Hin. }
  destruct Hf as [Hl|Hr]; [exact Hl|]. rewrite Hr in Ht. discriminate.
Qed.

Lemma X8_witness :
  Forall (fun ev => is_fail ev = false) (log_of (check_pytorch env_ready)).
Proof.
  apply (X8_passing_check_prints_no_error env_ready "pytorch" check_pytorch).
  - left.
  - reflexivity.
Defined.

Section FalseEndsWith.
Context (P : event -> bool).

Lemma false_ends_with_ret_true : false_ends_with P (ret true).
Proof. intros H. discriminate. Qed.

Lemma false_ends_with_bind {A} (m : M A) (k : A -> M bool) :
  (forall a, false_ends_with P (k a)) -> false_ends_with P (bind m k).
Proof.
  intros Hk. unfold false_ends_with. rewrite result_of_bind, log_of_bind.
  destruct (result_of m) as [a|e]; [|discriminate].
  intros H. destruct (Hk a H) as (ev & Hlast & Hev).
  exists ev. split; [|exact Hev]. rewrite last_app, Hlast. reflexivity.
Qed.

Lemma false_ends_with_try (body : M bool) hs :
  false_ends_with P body ->
  (forall e h, select_handler e hs = Some h -> false_ends_with P (h e)) ->
  false_ends_with P (try_ body hs).
Proof.
  intros Hb Hh. unfold false_ends_with. rewrite result_of_try, log_of_try.
  destruct (result_of body) as [a|e] eqn:Eb.
  - intros H. rewrite app_nil_r. apply Hb. rewrite Eb. exact H.
  - destruct (select_handler e hs) as [h|] eqn:Eh; [|discriminate].
    intros H. destruct (Hh e h Eh H) as (ev & Hlast & Hev).
    exists ev. split; [|exact Hev]. rewrite last_app, Hlast. reflexivity.
Qed.

Lemma false_ends_with_emit ev (b : bool) :
  P ev = true -> false_ends_with P (bind (emit ev) (fun _ => ret b)).
Proof. intros Hev _. exists ev. split; [reflexivity|exact Hev]. Qed.
End FalseEndsWith.

Ltac false_ends_with_tac :=
  unfold_monad;
  repeat first
    [ apply false_ends_with_ret_true
    | apply false_ends_with_emit; reflexivity
    | solve [intros Hfalse; discriminate Hfalse]
    | apply false_ends_with_try;
      [|let H := fresh "H" in intros ? ? H; pick_handler H]
    | apply false_ends_with_bind; intros ?
    | match goal with
      | |- false_ends_with _ (if ?b then _ else _) => destruct b
      end ].

Lemma ends_with_fail (l : list event) :
  (exists ev, last l = Some ev /\ is_fail ev = true) ->
  exists msg, last l = Some (Fail msg).
Proof. intros ([] & Hl & Hev); try discriminate Hev. eauto. Qed.

Lemma ends_with_warn (l : list event) :
  (exists ev, last l = Some ev /\ is_warn ev = true) ->
  exists msg, last l = Some (Warn msg).
Proof. intros ([] & Hl & Hev); try discriminate Hev. eauto. Qed.

(** X9. When [check_pytorch], [check_transformer_engine] or
    [check_modelopt] returns false, the last line it printed is an
    error line. *)
Theorem X9_false_after_error_line env :
  (result_of (check_pytorch env) = Returned false ->
   exists msg, last (log_of (check_pytorch env)) = Some (Fail msg))
  /\ (result_of (check_transformer_engine env) = Returned false ->
      exists msg,
        last (log_of (check_transformer_engine env)) = Some (Fail msg))
  /\ (result_of (check_modelopt env) = Returned false ->
      exists msg, last (log_of (check_modelopt env)) = Some (Fail msg)).
Proof.
  repeat split; intros H; apply ends_with_fail; revert H;
    match goal with |- ?R = _ -> _ =>
      match R with result_of ?m => change (false_ends_with is_fail m) end
    end.
  - unfold check_pytorch. false_ends_with_tac.
  - unfold check_transformer_engine. false_ends_with_tac.
  - unfold check_modelopt. false_ends_with_tac.
Qed.

Lemma X9_witness :
  exists msg, last (log_of (check_pytorch env_no_gpu)) = Some (Fail msg).
Proof.
  apply (proj1 (X9_false_after_error_line env_no_gpu)). reflexivity.
Defined.

(** X10. [run_fp8_test] never prints an error line, and when it
    returns false the last line it printed is a warning. *)
Theorem X10_run_fp8_test_fails_with_warning env :
  Forall (fun ev => is_fail ev = false) (log_of (run_fp8_test env))
  /\ (result_of (run_fp8_test env) = Returned false ->
      exists msg, last (log_of (run_fp8_test env)) = Some (Warn msg)).
Proof.
  split.
  - change (log_all not_fail (run_fp8_test env)).
    unfold run_fp8_test. log_all_tac ltac:(reflexivity).
  - intros H. apply ends_with_warn. revert H.
    change (false_ends_with is_warn (run_fp8_test env)).
    unfold run_fp8_test. false_ends_with_tac.
Qed.

Lemma X10_witness :
  exists msg, last (log_of (run_fp8_test env_no_gpu)) = Some (Warn msg).
Proof.
  apply (proj2 (X10_run_fp8_test_fails_with_warning env_no_gpu)).
  reflexivity.
Defined.

(** ** Sub-probes and what they print *)

Lemma sub_probes_print_no_error env :
  log_all not_fail (te_recipes env)
  /\ log_all not_fail (te_state_manager env)
  /\ log_all not_fail (te_layers env)
  /\ log_all not_fail (te_forward_pass env)
  /\ log_all not_fail (modelopt_quantization env)
  /\ log_all not_fail (modelopt_export env)
  /\ log_all not_fail (megatron_tensor_parallel env)
  /\ log_all not_fail (megatron_transformer env)
  /\ log_all not_fail (megatron_models env)
  /\ log_all not_fail (megatron_install_path env).
Proof.
  unfold te_recipes, te_state_manager, te_layers, te_forward_pass,
    modelopt_quantization, modelopt_export, megatron_tensor_parallel,
    megatron_transformer, megatron_models, megatron_install_path.
  repeat split; log_all_tac ltac:(reflexivity).
Qed.

(** Replaces a sub-probe that returns by its log, keeping what is known
    of the log. *)
Ltac name_returned_block blk Hres Hlog :=
  let l := fresh "l" in
  let r := fresh "r" in
  let Hr := fresh "Hr" in
  let Hl := fresh "Hl" in
  pose proof Hres as Hr; pose proof Hlog as Hl;
  unfold log_all in Hl;
  destruct blk as [l r];
  unfold result_of, log_of in Hr, Hl; simpl fst in Hl; simpl snd in Hr;
  subst r.

(** X11. When Megatron imports and its parallel state is absent (and
    the three advisory sub-probes raise nothing but [ImportError]),
    [check_megatron_lm] returns false having printed the warning of the
    parallel state and no error line: this required check can fail
    without any error line. *)
Theorem X11_megatron_parallel_state_absent env :
  import_module env "megatron" = Ok tt ->
  from_import env "megatron.core" ["parallel_state"] = Raises LibImportError ->
  broken (from_import env "megatron.core.tensor_parallel" ["layers"]) = false ->
  broken (from_import env "megatron.core.transformer" ["TransformerConfig"])
  = false ->
  broken (from_import env "megatron.core.models.gpt" ["GPTModel"]) = false ->
  result_of (check_megatron_lm env) = Returned false
  /\ Forall (fun ev => is_fail ev = false) (log_of (check_megatron_lm env))
  /\ Warn "Megatron Core: {e}" ∈ log_of (check_megatron_lm env).
Proof.
  intros H1 H2 H3 H4 H5.
  destruct (sub_probes_print_no_error env)
    as (_ & _ & _ & _ & _ & _ & L1 & L2 & L3 & L4).
  pose proof (megatron_tensor_parallel_result env) as R1.
  pose proof (megatron_transformer_result env) as R2.
  pose proof (megatron_models_result env) as R3.
  destruct (megatron_install_path_never_raises env) as [[] R4].
  rewrite H3 in R1. rewrite H4 in R2. rewrite H5 in R3.
  unfold check_megatron_lm, megatron_core. unfold_monad. rewrite H1, H2.
  name_returned_block (megatron_tensor_parallel env) R1 L1.
  name_returned_block (megatron_transformer env) R2 L2.
  name_returned_block (megatron_models env) R3 L3.
  name_returned_block (megatron_install_path env) R4 L4.
  cbn. split; [reflexivity|]. split.
  - repeat (apply Forall_cons; split; [reflexivity|]).
    rewrite !Forall_app. repeat split; try assumption. constructor.
  - rewrite !elem_of_cons. auto.
Qed.

Lemma X11_witness :
  result_of (check_megatron_lm env_megatron_no_parallel_state) = Returned false
  /\ Forall (fun ev => is_fail ev = false)
       (log_of (check_megatron_lm env_megatron_no_parallel_state))
  /\ Warn "Megatron Core: {e}"
       ∈ log_of (check_megatron_lm env_megatron_no_parallel_state).
Proof.
  apply (X11_megatron_parallel_state_absent env_megatron_no_parallel_state);
    reflexivity.
Defined.

(** X12. When [check_transformer_engine] passes, what it prints is its
    header, the version line and the integration line followed by the
    complete output of the four sub-probes, in order: a sub-probe that
    ends in a warning does not keep the later ones from running. *)
Theorem X12_check_transformer_engine_passing_log env :
  te_passes env = true ->
  check_transformer_engine env =
    ([Header "2. Transformer Engine";
      Okay "Transformer Engine {transformer_engine.__version__}";
      Okay "PyTorch integration available"]
     ++ log_of (te_recipes env) ++ log_of (te_state_manager env)
     ++ log_of (te_layers env) ++ log_of (te_forward_pass env),
     Returned true).
Proof.
  unfold te_passes. rewrite !andb_true_iff, !negb_true_iff.
  intros [[[[[[H1 H2] H3] H4] H5] H6] H7].
  pose proof (te_recipes_result env) as R1.
  pose proof (te_state_manager_result env) as R2.
  pose proof (te_layers_result env) as R3.
  destruct (te_forward_pass_never_raises env) as [[] R4].
  rewrite H4, H5 in R1. rewrite H6 in R2. rewrite H7 in R3.
  unfold check_transformer_engine, getattr. unfold_monad. rewrite H2.
  destruct (import_module env "transformer_engine") as [[]|]; [|discriminate].
  destruct (import_module env "transformer_engine.pytorch") as [[]|];
    [|discriminate].
  unfold result_of, log_of in *.
  destruct (te_recipes env) as [l1 r1], (te_state_manager env) as [l2 r2],
    (te_layers env) as [l3 r3], (te_forward_pass env) as [l4 r4].
  simpl in R1, R2, R3, R4. subst. cbn. rewrite !app_nil_r. reflexivity.
Qed.

Lemma X12_witness :
  check_transformer_engine env_te_degraded =
    ([Header "2. Transformer Engine";
      Okay "Transformer Engine {transformer_engine.__version__}";
      Okay "PyTorch integration available";
      Warn "FP8 recipes: {e}";
      Warn "FP8GlobalStateManager not available in this version";
      Warn "Some TE layers not available: {e}";
      Warn te_forward_warn],
     Returned true).
Proof.
  apply (X12_check_transformer_engine_passing_log env_te_degraded).
  reflexivity.
Defined.

(** X13. When the import of the recipes raises something other than
    [ImportError], [check_transformer_engine] stops there: it prints
    its error line and returns false, and the state manager, layer and
    forward-pass sub-probes are not run. *)
Theorem X13_check_transformer_engine_recipes_broken env :
  import_module env "transformer_engine" = Ok tt ->
  has_attr env "transformer_engine" "__version__" = true ->
  import_module env "transformer_engine.pytorch" = Ok tt ->
  from_import env "transformer_engine.common.recipe"
    ["DelayedScaling"; "Format"] = Raises LibOtherError ->
  check_transformer_engine env =
    ([Header "2. Transformer Engine";
      Okay "Transformer Engine {transformer_engine.__version__}";
      Okay "PyTorch integration available";
      Fail "Transformer Engine: {e}"],
     Returned false).
Proof.
  intros H1 H2 H3 H4.
  unfold check_transformer_engine, te_recipes, getattr. unfold_monad.
  rewrite H1, H2, H3, H4. reflexivity.
Qed.

Lemma X13_witness :
  check_transformer_engine env_te_recipes_broken =
    ([Header "2. Transformer Engine";
      Okay "Transformer Engine {transformer_engine.__version__}";
      Okay "PyTorch integration available";
      Fail "Transformer Engine: {e}"],
     Returned false).
Proof.
  apply (X13_check_transformer_engine_recipes_broken env_te_recipes_broken);
    reflexivity.
Defined.


(** X15. When [run_fp8_test] passes on a device of compute capability
    [major].[minor], it prints the two emulation notes exactly when
    [major] is below 9, whatever [minor] is, then the recipe line and
    the forward-pass line. *)
Theorem X15_run_fp8_test_passing_log env major minor :
  cuda_get_device_capability env = Ok (major, minor) ->
  fp8_passes env = true ->
  run_fp8_test env =
    ([Header "6. FP8 Functional Test"]
     ++ (if (major <? 9)%nat then emulation_notes else [])
     ++ [Okay "FP8 recipe created";
         Okay "FP8 forward pass completed (output shape: {y.shape})"],
     Returned true).
Proof.
  intros Hc. unfold fp8_passes, accelerator_present.
  rewrite !andb_true_iff. intros [[[[[[[[H1 H2] H3] H4] H5] H6] H7] H8] H9].
  unfold run_fp8_test. unfold_monad. rewrite Hc.
  destruct (import_module env "torch") as [[]|]; [|discriminate].
  destruct (import_module env "transformer_engine.pytorch") as [[]|];
    [|discriminate].
  destruct (from_import env "transformer_engine.common.recipe" _) as [[]|];
    [|discriminate].
  destruct (cuda_is_available env) as [[]|]; try discriminate.
  destruct (make_DelayedScaling env) as [[]|]; [|discriminate].
  destruct (te_Linear_cuda env 512 512) as [[]|]; [|discriminate].
  destruct (torch_randn env [8; 32; 512]) as [[]|]; [|discriminate].
  destruct (fp8_autocast_forward env) as [[]|]; [|discriminate].
  cbn -[Nat.ltb]. destruct (major <? 9)%nat; reflexivity.
Qed.

Lemma X15_witness :
  run_fp8_test (env_devices 1 8 9) =
    (Header "6. FP8 Functional Test"
       :: emulation_notes
       ++ [Okay "FP8 recipe created";
           Okay "FP8 forward pass completed (output shape: {y.shape})"],
     Returned true).
Proof.
  apply (X15_run_fp8_test_passing_log (env_devices 1 8 9) 8 9); reflexivity.
Defined.

(** ** The summary and the verdict *)

Lemma main_summary_run_aux b1 b2 b3 b4 b5 b6 :
  main_summary (results_of b1 b2 b3 b4 b5 b6) =
    (summary_lines b1 b2 b3 b4 b5 b6
     ++ (if b1 && b2 && b4 then [ready_line; Separator] else [issues_line]),
     if b1 && b2 && b4 then Returned tt else Raised (SystemExit 1)).
Proof. destruct b1, b2, b3, b4, b5, b6; vm_compute; reflexivity. Qed.

(** X16. For the dictionary of six results, [main_summary] prints a
    PASS or FAIL line for each required check and a PASS or
    NOT AVAILABLE line for each optional one, in the order of the two
    lists.  When the three required checks passed it prints the ready
    line and a closing separator and returns; otherwise it prints the
    issues line and leaves through [sys.exit(1)], so the closing
    separator is not printed. *)
Theorem X16_main_summary_run b1 b2 b3 b4 b5 b6 :
  main_summary (results_of b1 b2 b3 b4 b5 b6) =
    (summary_lines b1 b2 b3 b4 b5 b6
     ++ (if b1 && b2 && b4 then [ready_line; Separator] else [issues_line]),
     if b1 && b2 && b4 then Returned tt else Raised (SystemExit 1)).
Proof. apply main_summary_run_aux. Qed.

(** X17. [all(results[k] for k in ks)] prints nothing, and returns true
    exactly when every key of [ks] is in the dictionary with the value
    true. *)
Theorem X17_all_results_true_iff (results : gmap string bool) ks :
  log_of (all_results results ks) = []
  /\ (result_of (all_results results ks) = Returned true <->
      Forall (fun k => results !! k = Some true) ks).
Proof.
  induction ks as [|k ks [IHl IHr]]; simpl.
  - split; [reflexivity|]. split; [constructor|reflexivity].
  - unfold getitem. unfold_monad.
    destruct (results !! k) as [[]|] eqn:Ek; simpl.
    + unfold log_of, result_of in *. destruct (all_results results ks) as [l r].
      simpl in *. subst l. split; [reflexivity|].
      rewrite Forall_cons, IHr. tauto.
    + split; [reflexivity|]. split; [discriminate|].
      intros Hf. apply Forall_cons in Hf as [Hf _]. congruence.
    + split; [reflexivity|]. split; [discriminate|].
      intros Hf. apply Forall_cons in Hf as [Hf _]. congruence.
Qed.

(** X18. [all(results[k] for k in ks)] stops at the first key whose
    value is not true: it returns false when that key holds false and
    raises [KeyError] for that key when it is missing, and the keys
    after it are not looked up. *)
Theorem X18_all_results_first_not_true (results : gmap string bool) ks1 k ks2 :
  Forall (fun k' => results !! k' = Some true) ks1 ->
  results !! k <> Some true ->
  all_results results (ks1 ++ k :: ks2) =
    ([], match results !! k with
         | Some _ => Returned false
         | None => Raised (KeyError k)
         end).
Proof.
  intros H1 Hk. induction H1 as [|k' ks1 Hk' _ IH]; simpl.
  - unfold getitem. unfold_monad.
    destruct (results !! k) as [[]|]; [congruence|reflexivity|reflexivity].
  - unfold getitem at 1. unfold_monad. rewrite Hk'. cbn [ret bind].
    rewrite IH. reflexivity.
Qed.

Lemma X18_witness :
  all_results {["pytorch" := false]} ([] ++ "pytorch" :: ["missing"])
  = ([], Returned false)
  /\ all_results {["pytorch" := true]} (["pytorch"] ++ "missing" :: ["pytorch"])
     = ([], Raised (KeyError "missing")).
Proof.
  split.
  - etrans.
    + apply (X18_all_results_first_not_true {["pytorch" := false]} []
               "pytorch" ["missing"]).
      * constructor.
      * vm_compute. discriminate.
    + vm_compute. reflexivity.
  - etrans.
    + apply (X18_all_results_first_not_true {["pytorch" := true]} ["pytorch"]
               "missing" ["pytorch"]).
      * repeat constructor.
      * vm_compute. discriminate.
    + vm_compute. reflexivity.
Defined.

Lemma main_checks_no_verdict env : log_all not_verdict (main_checks env).
Proof.
  unfold main_checks, check_pytorch, check_transformer_engine, te_recipes,
    te_state_manager, te_layers, te_forward_pass, check_modelopt,
    modelopt_quantization, modelopt_export, check_megatron_lm, megatron_core,
    megatron_tensor_parallel, megatron_transformer, megatron_models,
    megatron_install_path, check_additional_tools, run_fp8_test.
  log_all_tac ltac:(split; discriminate).
Qed.

Lemma summary_lines_no_verdict b1 b2 b3 b4 b5 b6 :
  Forall not_verdict (summary_lines b1 b2 b3 b4 b5 b6).
Proof. unfold summary_lines. repeat constructor; discriminate. Qed.

(** A run of [main]: the banner, the six calls, and the summary when
    the calls have all returned. *)
Lemma main_run env :
  main env =
    let '(l, r) := main_checks env in
    ([Separator; Print "GTC NVFP4 TRAINING LAB - COMPREHENSIVE VALIDATION";
      Separator] ++ l
     ++ match r with
        | Returned results => log_of (main_summary results)
        | Raised _ => []
        end,
     match r with
     | Returned results => result_of (main_summary results)
     | Raised e => Raised e
     end).
Proof.
  unfold main. unfold_monad. destruct (main_checks env) as [l [results|e]].
  - cbn [bind emit]. destruct (main_summary results) as [l0 r0]. reflexivity.
  - cbn. rewrite app_nil_r. reflexivity.
Qed.

(** X19. In an environment where no tool import raises anything but
    [ImportError], the exit status is 0 exactly when [check_pytorch],
    [check_transformer_engine] and [check_megatron_lm] returned true,
    whatever the three optional checks returned. *)
Theorem X19_main_exit_status_when_tools_return env :
  tool_import_broken env = false ->
  (exit_status (main env) = 0%Z <->
   result_of (check_pytorch env) = Returned true
   /\ result_of (check_transformer_engine env) = Returned true
   /\ result_of (check_megatron_lm env) = Returned true).
Proof.
  intros Ht. destruct (check_pytorch_never_raises env) as [b1 H1].
  rewrite (exit_status_main env b1 H1), Ht, H1,
    check_transformer_engine_result, check_megatron_lm_result.
  destruct b1, (te_passes env), (megatron_passes env); simpl;
    split; try discriminate; try tauto;
    intros (? & ? & ?); discriminate.
Qed.

Lemma X19_witness :
  exit_status (main env_no_tools) = 0%Z <->
  result_of (check_pytorch env_no_tools) = Returned true
  /\ result_of (check_transformer_engine env_no_tools) = Returned true
  /\ result_of (check_megatron_lm env_no_tools) = Returned true.
Proof.
  apply (X19_main_exit_status_when_tools_return env_no_tools). reflexivity.
Defined.

(** X20. In an environment where no tool import raises anything but
    [ImportError], [main] invokes the six probes, each once, in the
    order [check_pytorch], [check_transformer_engine], [check_modelopt],
    [check_megatron_lm], [check_additional_tools], [run_fp8_test],
    whatever each of them returns. *)
Theorem X20_main_invokes_six_when_tools_return env :
  tool_import_broken env = false ->
  calls (log_of (main env)) =
    ["check_pytorch"; "check_transformer_engine"; "check_modelopt";
     "check_megatron_lm"; "check_additional_tools"; "run_fp8_test"].
Proof. intros Ht. rewrite calls_of_main, Ht. reflexivity. Qed.

Lemma X20_witness :
  calls (log_of (main env_no_torch)) =
    ["check_pytorch"; "check_transformer_engine"; "check_modelopt";
     "check_megatron_lm"; "check_additional_tools"; "run_fp8_test"].
Proof.
  apply (X20_main_invokes_six_when_tools_return env_no_torch). reflexivity.
Defined.

(** X21. The exit status of a run is 0 or 1.  The ready line is printed
    exactly on the runs that end with status 0, and the issues line
    exactly on the runs that end through [sys.exit(1)]: a run ended by
    an exception of [check_additional_tools] prints neither. *)
Theorem X21_main_verdict env :
  (exit_status (main env) = 0%Z \/ exit_status (main env) = 1%Z)
  /\ (ready_line ∈ log_of (main env) <-> exit_status (main env) = 0%Z)
  /\ (issues_line ∈ log_of (main env) <->
      result_of (main env) = Raised (SystemExit 1)).
Proof.
  destruct (check_pytorch_never_raises env) as [b1 H1].
  pose proof (main_checks_result env b1 H1) as Hr.
  pose proof (main_checks_no_verdict env) as Hl.
  unfold exit_status. rewrite main_run.
  unfold log_all, result_of, log_of in *.
  destruct (main_checks env) as [l r]. simpl in Hr, Hl. subst r.
  assert (Hbanner : Forall not_verdict
            [Separator;
             Print "GTC NVFP4 TRAINING LAB - COMPREHENSIVE VALIDATION";
             Separator]) by (repeat constructor; discriminate).
  destruct (tool_import_broken env).
  - cbn [fst snd]. rewrite app_nil_r.
    assert (Hall : Forall not_verdict
              ([Separator;
                Print "GTC NVFP4 TRAINING LAB - COMPREHENSIVE VALIDATION";
                Separator] ++ l)) by (apply Forall_app; split; assumption).
    rewrite Forall_forall in Hall.
    split; [right; reflexivity|]. split; split; try discriminate;
      intros Hin; destruct (Hall _ Hin) as [? ?]; congruence.
  - cbn [fst snd]. rewrite main_summary_run_aux. cbn [fst snd].
    set (b2 := te_passes env). set (b4 := megatron_passes env).
    pose proof (summary_lines_no_verdict b1 b2
                  (negb (absent (import_module env "modelopt"))) b4
                  (tools_available env) (fp8_passes env)) as Hs.
    set (sl := summary_lines _ _ _ _ _ _) in *.
    assert (Hall : Forall not_verdict
              ([Separator;
                Print "GTC NVFP4 TRAINING LAB - COMPREHENSIVE VALIDATION";
                Separator] ++ l ++ sl))
      by (rewrite !Forall_app; repeat split; assumption).
    rewrite Forall_forall in Hall.
    rewrite !(assoc_L (++)). rewrite <- (assoc_L (++) _ l sl).
    destruct (b1 && b2 && b4).
    + split; [left; reflexivity|].
      split; split; try discriminate; try reflexivity.
      * intros _. rewrite elem_of_app. right. rewrite !elem_of_cons. auto.
      * rewrite elem_of_app. intros [Hin|Hin].
        -- destruct (Hall _ Hin) as [? ?]; congruence.
        -- rewrite !elem_of_cons in Hin.
           destruct Hin as [Hin|[Hin|Hin]];
             [discriminate Hin|discriminate Hin|by apply elem_of_nil in Hin].
    + split; [right; reflexivity|].
      split; split; try discriminate; try reflexivity.
      * rewrite elem_of_app. intros [Hin|Hin].
        -- destruct (Hall _ Hin) as [? ?]; congruence.
        -- rewrite !elem_of_cons in Hin.
           destruct Hin as [Hin|Hin];
             [discriminate Hin|by apply elem_of_nil in Hin].
      * intros _. rewrite elem_of_app. right. rewrite !elem_of_cons. auto.
Qed.

(** X22. When the six calls have returned, the dictionary has exactly
    the six keys of [checks], and under each key the value the probe
    stored under it returned: no entry is overwritten. *)
Theorem X22_main_checks_entries env (results : gmap string bool) :
  result_of (main_checks env) = Returned results ->
  dom results = list_to_set (checks.*1)
  /\ forall key probe, (key, probe) ∈ checks ->
       exists b, result_of (probe env) = Returned b /\ results !! key = Some b.
Proof.
  intros H. destruct (check_pytorch_never_raises env) as [b1 H1].
  rewrite (main_checks_result env b1 H1) in H.
  pose proof (check_additional_tools_result env) as H5.
  fold (tool_import_broken env) (tools_available env) in H5.
  destruct (tool_import_broken env); [discriminate|].
  injection H as <-. split.
  - unfold results_of. rewrite !dom_insert_L, dom_empty_L. simpl. set_solver.
  - intros key probe Hin.
    pose proof (results_of_lookup b1 (te_passes env)
                  (negb (absent (import_module env "modelopt")))
                  (megatron_passes env) (tools_available env)
                  (fp8_passes env)) as (L1 & L2 & L3 & L4 & L5 & L6).
    unfold checks in Hin.
    repeat (apply elem_of_cons in Hin as [Hin|Hin];
            [injection Hin as -> ->|]);
      [ | | | | | | by apply elem_of_nil in Hin]; eexists; split; eauto.
    + apply check_transformer_engine_result.
    + apply check_modelopt_result.
    + apply check_megatron_lm_result.
    + apply run_fp8_test_result.
Qed.

Lemma X22_witness :
  dom (results_of true true true true true true) = list_to_set (checks.*1)
  /\ forall key probe, (key, probe) ∈ checks ->
       exists b, result_of (probe env_ready) = Returned b
                 /\ results_of true true true true true true !! key = Some b.
Proof.
  apply (X22_main_checks_entries env_ready). vm_compute. reflexivity.
Defined.
